(** * kdp-project: export packager, upload validation and in-memory repository

    A shallow embedding of [client/src/lib/exportUtils.ts],
    [validateFileType] (client [documentUtils.ts] and the server's document
    processor, which carry the same text) and the server's [MemStorage],
    followed by the properties established about them.

    Strings.  A JavaScript string is a sequence of UTF-16 code units.  The
    embedding uses [string], whose characters are the code units 0..255;
    [toLowerCase] and [trim] below are the built-ins restricted to that
    range.  Every literal of the source lies in it. *)

From Stdlib Require Import String Ascii List Bool Arith NArith ZArith Lia.
From Stdlib Require Import Permutation DecimalNat.
From Stdlib Require Import DecimalString HexadecimalString.
Import ListNotations.
Open Scope string_scope.

(* ================================================================== *)
(** * Part I: the program *)
(* ================================================================== *)

(** ** Built-ins of the host language used by the sources *)
Module Js.

Definition dquote : ascii := "034"%char.
Definition newline : ascii := "010"%char.

Definition code (c : ascii) : nat := nat_of_ascii c.

Definition between (lo hi : nat) (c : ascii) : bool :=
  (lo <=? code c)%nat && (code c <=? hi)%nat.

(** Template text is written with ['] where the source has a double quote;
    [q] puts the double quotes back.  No template of the sources contains
    a single quote of its own. *)
Fixpoint q (s : string) : string :=
  match s with
  | EmptyString => EmptyString
  | String c r => String (if Ascii.eqb c "'" then dquote else c) (q r)
  end.

(** [String.prototype.toLowerCase] on code units below 256: A-Z and the
    Latin-1 capitals U+00C0..U+00DE (without the multiplication sign). *)
Definition toLowerCaseChar (c : ascii) : ascii :=
  if between 65 90 c || (between 192 222 c && negb (code c =? 215)%nat)
  then ascii_of_nat (code c + 32) else c.

Fixpoint toLowerCase (s : string) : string :=
  match s with
  | EmptyString => EmptyString
  | String c r => String (toLowerCaseChar c) (toLowerCase r)
  end.

(** White space and line terminators stripped by [trim]: TAB, LF, VT, FF,
    CR, SP and NBSP. *)
Definition isWhiteSpace (c : ascii) : bool :=
  between 9 13 c || (code c =? 32)%nat || (code c =? 160)%nat.

Fixpoint trimStart (s : string) : string :=
  match s with
  | EmptyString => EmptyString
  | String c r => if isWhiteSpace c then trimStart r else s
  end.

Fixpoint trimEnd (s : string) : string :=
  match s with
  | EmptyString => EmptyString
  | String c r =>
      match trimEnd r with
      | EmptyString => if isWhiteSpace c then EmptyString else String c EmptyString
      | r' => String c r'
      end
  end.

Definition trim (s : string) : string := trimEnd (trimStart s).

(** [s.replace(/C/g, r)] for a pattern [C] that matches one code unit:
    every code unit accepted by [p] is replaced by [r]. *)
Fixpoint replaceEach (p : ascii -> bool) (r : string) (s : string) : string :=
  match s with
  | EmptyString => EmptyString
  | String c rest =>
      if p c then r ++ replaceEach p r rest else String c (replaceEach p r rest)
  end.

Definition isChar (c : ascii) : ascii -> bool := Ascii.eqb c.

(** The class [[a-z0-9]] under the [i] flag (no [u] flag): ASCII letters of
    either case and digits, nothing else. *)
Definition isAlnum (c : ascii) : bool :=
  between 48 57 c || between 65 90 c || between 97 122 c.

(** [String.prototype.startsWith]. *)
Fixpoint startsWith (pat s : string) : bool :=
  match pat with
  | EmptyString => true
  | String a pat' =>
      match s with
      | EmptyString => false
      | String b s' => Ascii.eqb a b && startsWith pat' s'
      end
  end.

(** [String.prototype.includes]. *)
Fixpoint includes (pat s : string) : bool :=
  startsWith pat s ||
  match s with
  | EmptyString => false
  | String _ r => includes pat r
  end.

(** [s.split(sep)] for a non-empty separator: cut at every occurrence of
    [sep], scanning from the left, occurrences not overlapping.  [skip]
    counts the code units of a separator still to be passed over and [cur]
    is the piece being accumulated. *)
Fixpoint split_from (sep : string) (skip : nat) (cur : string) (s : string)
  : list string :=
  match s with
  | EmptyString => [cur]
  | String c rest =>
      match skip with
      | S k => split_from sep k cur rest
      | O =>
          if startsWith sep s
          then cur :: split_from sep (String.length sep - 1) EmptyString rest
          else split_from sep 0 (cur ++ String c EmptyString) rest
      end
  end.

Definition split (sep s : string) : list string := split_from sep 0 EmptyString s.

(** [Array.prototype.join]. *)
Definition join (sep : string) (l : list string) : string := String.concat sep l.

(** [Array.prototype.pop], the value it returns ([None] is [undefined]). *)
Fixpoint pop (l : list string) : option string :=
  match l with
  | [] => None
  | [x] => Some x
  | _ :: r => pop r
  end.

(** [Array.prototype.includes] on strings. *)
Definition arrayIncludes (l : list string) (x : string) : bool :=
  existsb (String.eqb x) l.

(** [x || ''] for [x : string | undefined | null]. *)
Definition orEmpty (x : option string) : string :=
  match x with
  | Some s => s
  | None => EmptyString
  end.

(** Truthiness of [x : string | null]. *)
Definition truthy (x : option string) : bool :=
  match x with
  | Some (String _ _) => true
  | _ => false
  end.

(** [arr.map((x, index) => f(x, index))], the index starting at [i]. *)
Fixpoint mapi_from {A B : Type} (i : nat) (f : A -> nat -> B) (l : list A) : list B :=
  match l with
  | [] => []
  | x :: r => f x i :: mapi_from (S i) f r
  end.

Definition mapi {A B : Type} (f : A -> nat -> B) (l : list A) : list B :=
  mapi_from 0 f l.

(** A non-negative integer in a template literal. *)
Definition natToString (n : nat) : string :=
  DecimalString.NilEmpty.string_of_uint (Nat.to_uint n).

Definition nToString (n : N) : string :=
  DecimalString.NilEmpty.string_of_uint (N.to_uint n).

(** [v.toString(16)] for a non-negative integer. *)
Definition toString16 (v : N) : string :=
  HexadecimalString.NilZero.string_of_uint (N.to_hex_uint v).

(** [s.split(/\s+/)]: cut at every maximal run of white space.  [inRun]
    says that the scan is inside such a run and [cur] is the piece being
    accumulated. *)
Fixpoint splitWs_from (inRun : bool) (cur : string) (s : string) : list string :=
  match s with
  | EmptyString => [cur]
  | String c rest =>
      if isWhiteSpace c
      then if inRun then splitWs_from true cur rest
           else cur :: splitWs_from true EmptyString rest
      else splitWs_from false (cur ++ String c EmptyString) rest
  end.

Definition splitWs (s : string) : list string := splitWs_from false EmptyString s.

(** [toUpperCase] on a string of ASCII letters, which is all its call
    sites pass (the extensions [odt] and [rtf]). *)
Definition toUpperCaseChar (c : ascii) : ascii :=
  if between 97 122 c then ascii_of_nat (code c - 32) else c.

Fixpoint toUpperCase (s : string) : string :=
  match s with
  | EmptyString => EmptyString
  | String c r => String (toUpperCaseChar c) (toUpperCase r)
  end.

End Js.

(** ** The records of [shared/schema.ts] *)

(** A number of the options (font size, line spacing, a margin): the
    values in use have at most two decimals and are held in hundredths, so
    that their text in a template literal is exact. *)
Module Num.

Definition t := Z.

Definition ofInt (n : Z) : t := (n * 100)%Z.

Definition toString (x : t) : string :=
  let a := Z.abs x in
  let whole := Z.to_nat (a / 100) in
  let frac := Z.to_nat (a mod 100) in
  (if (x <? 0)%Z then "-" else "") ++ Js.natToString whole ++
  (if (frac =? 0)%nat then ""
   else "." ++ Js.natToString (frac / 10) ++
        (if (frac mod 10 =? 0)%nat then "" else Js.natToString (frac mod 10))).

(** [x || d] for [x : number | undefined]: zero is falsy. *)
Definition orDefault (x : option t) (d : t) : t :=
  match x with
  | Some v => if (v =? 0)%Z then d else v
  | None => d
  end.

End Num.

Module BookImage.
Record t := mk { name : string; url : string }.
End BookImage.

Module BookChapter.
Record t := mk { title : string; content : string; order : Z; wordCount : Z }.
End BookChapter.

Module Book.
Record t := mk {
  id : string;
  title : string;
  author : string;
  genre : string;
  description : option string;
  keywords : option (list string);
  content : option (list BookChapter.t);
  coverUrl : option string;
  images : option (list BookImage.t);
  sourceFile : option string;
  targetLength : option string;
  writingStyle : option string;
  progress : option Z;
  status : string;
  createdAt : option Z;
  updatedAt : option Z
}.
End Book.

(* ------------------------------------------------------------------ *)
(** ** [client/src/lib/exportUtils.ts] *)
Module ExportUtils.
Import Js.

Inductive Format :=
  | kindle | epub | pdf | docx | print_ready
  | otherFormat (name : string).   (* a value outside the declared union *)

Definition formatName (f : Format) : string :=
  match f with
  | kindle => "kindle" | epub => "epub" | pdf => "pdf" | docx => "docx"
  | print_ready => "print-ready" | otherFormat n => n
  end.

Inductive PaperSize := us_trade | us_letter | a4 | custom.

Record Margins := mkMargins { top : Num.t; bottom : Num.t; left : Num.t; right : Num.t }.

Record ExportOptions := mkOptions {
  format : Format;
  includeImages : bool;
  paperSize : option PaperSize;
  margins : option Margins;
  fontSize : option Num.t;
  fontFamily : option string;
  lineSpacing : option Num.t
}.

(** *** The host: everything the exporter reaches outside itself *)

(** A value raised by [throw]: an [Error] with its message, or any value
    that is not an [Error]. *)
Inductive Thrown := ErrorObj (message : string) | NotAnError.

Inductive FileData :=
  | Text (s : string)
  | Binary (body : string)
  | Folder.

(** A JSZip archive: entries by name, in the order they were added. *)
Definition Zip := list (string * FileData).

Inductive Blob :=
  | ZipBlob (z : Zip)
  | PartsBlob (parts : list string) (type : string).

Inductive Event :=
  | Download (data : Blob) (filename : string)      (* saveAs *)
  | ConsoleWarn (msg : string) (e : Thrown)
  | DocumentWrite (html : string)
  | DocumentClose
  | OnloadPrintSet.                                  (* print(); close() on load *)

Record Host := mkHost {
  random16 : nat -> N;                      (* n-th value of Math.random() * 16 | 0 *)
  fetchBlob : string -> Thrown + string;    (* fetch(url), then response.blob() *)
  generateFails : Zip -> option Thrown;     (* zip.generateAsync *)
  saveFails : Blob -> string -> option Thrown;
  windowOpens : bool;                       (* window.open gives a window, or null *)
  writeFails : string -> option Thrown      (* printWindow.document.write *)
}.

(** A run from a position in the random sequence: the events caused, the
    position reached and the value returned or thrown. *)
Record Run (A : Type) := mkRun {
  events : list Event;
  cursor : nat;
  outcome : Thrown + A
}.
Arguments mkRun {A}.
Arguments events {A}.
Arguments cursor {A}.
Arguments outcome {A}.

Definition Exec (A : Type) : Type := nat -> Run A.

Definition ret {A} (a : A) : Exec A := fun c => mkRun [] c (inr a).

Definition throw {A} (e : Thrown) : Exec A := fun c => mkRun [] c (inl e).

Definition bind {A B} (m : Exec A) (k : A -> Exec B) : Exec B := fun c =>
  let r := m c in
  match outcome r with
  | inl e => mkRun (events r) (cursor r) (inl e)
  | inr a => let r' := k a (cursor r) in
             mkRun (events r ++ events r')%list (cursor r') (outcome r')
  end.

Definition tryCatch {A} (m : Exec A) (handler : Thrown -> Exec A) : Exec A := fun c =>
  let r := m c in
  match outcome r with
  | inl e => let r' := handler e (cursor r) in
             mkRun (events r ++ events r')%list (cursor r') (outcome r')
  | inr _ => r
  end.

Definition emit (ev : Event) : Exec unit := fun c => mkRun [ev] c (inr tt).

Definition failing (e : option Thrown) : Exec unit :=
  match e with
  | Some t => throw t
  | None => ret tt
  end.

Notation "x <- m ;; k" := (bind m (fun x => k))
  (at level 61, m at next level, right associativity).
Notation "m ;;; k" := (bind m (fun _ => k))
  (at level 61, right associativity).

Definition random (h : Host) : Exec N := fun c => mkRun [] (S c) (inr (random16 h c)).

Definition fetchCover (h : Host) (url : string) : Exec string :=
  match fetchBlob h url with
  | inl e => throw e
  | inr body => ret body
  end.

Definition generateAsync (h : Host) (z : Zip) : Exec Blob :=
  failing (generateFails h z) ;;; ret (ZipBlob z).

Definition saveAs (h : Host) (data : Blob) (filename : string) : Exec unit :=
  failing (saveFails h data filename) ;;; emit (Download data filename).

(** [zip.file(name, data)] adds an entry or replaces the one of that name. *)
Fixpoint zipSet (name : string) (d : FileData) (z : Zip) : Zip :=
  match z with
  | [] => [(name, d)]
  | (n, d') :: r => if String.eqb n name then (n, d) :: r else (n, d') :: zipSet name d r
  end.

Fixpoint zipGet (name : string) (z : Zip) : option FileData :=
  match z with
  | [] => None
  | (n, d) :: r => if String.eqb n name then Some d else zipGet name r
  end.

(** [zip.folder(name)] creates the directory entry unless it exists. *)
Definition zipFolder (name : string) (z : Zip) : Zip :=
  match zipGet (name ++ "/") z with
  | Some _ => z
  | None => zipSet (name ++ "/") Folder z
  end.

(** *** Utility functions *)

Definition escapeXML (text : string) : string :=
  replaceEach (isChar "'") "&#39;"
    (replaceEach (isChar dquote) "&quot;"
      (replaceEach (isChar ">") "&gt;"
        (replaceEach (isChar "<") "&lt;"
          (replaceEach (isChar "&") "&amp;" text)))).

Definition formatChapterContent (content : string) : string :=
  join (String newline EmptyString)
    (map (fun paragraph => "<p>" ++ escapeXML (trim paragraph) ++ "</p>")
         (split (String newline (String newline EmptyString)) content)).

Definition sanitizeFilename (filename : string) : string :=
  toLowerCase (replaceEach (fun c => negb (isAlnum c)) "_" filename).

Definition uuidDigit (h : Host) (c : ascii) : Exec string :=
  r <- random h ;;
  ret (toString16 (if Ascii.eqb c "x" then r else N.lor (N.land r 3) 8)).

(** [s.replace(/C/g, f)] with a callback that draws from the host. *)
Fixpoint replaceEachWith (p : ascii -> bool) (f : ascii -> Exec string) (s : string)
  : Exec string :=
  match s with
  | EmptyString => ret EmptyString
  | String c rest =>
      if p c
      then d <- f c ;; t <- replaceEachWith p f rest ;; ret (d ++ t)
      else t <- replaceEachWith p f rest ;; ret (String c t)
  end.

Definition generateUUID (h : Host) : Exec string :=
  replaceEachWith (fun c => isChar "x" c || isChar "y" c) (uuidDigit h)
    "xxxxxxxx-xxxx-4xxx-yxxx-xxxxxxxxxxxx".

Definition chaptersOf (book : Book.t) : list BookChapter.t :=
  match Book.content book with
  | Some l => l
  | None => []
  end.

(** *** Helper functions for creating EPUB/Kindle files *)

Definition createContainerXML : string :=
  q "<?xml version='1.0' encoding='UTF-8'?>
<container version='1.0' xmlns='urn:oasis:names:tc:opendocument:xmlns:container'>
  <rootfiles>
    <rootfile full-path='OEBPS/content.opf' media-type='application/oebps-package+xml'/>
  </rootfiles>
</container>".

(** [options.includeImages && book.coverUrl], as a condition. *)
Definition withCover (book : Book.t) (options : ExportOptions) : bool :=
  includeImages options && truthy (Book.coverUrl book).

Definition manifestItem (index : nat) : string :=
  q "<item id='chapter" ++ natToString (index + 1) ++ q "' href='chapter"
  ++ natToString (index + 1) ++ q ".xhtml' media-type='application/xhtml+xml'/>".

Definition spineItem (index : nat) : string :=
  q "<itemref idref='chapter" ++ natToString (index + 1) ++ q "'/>".

(** The package document around an identifier already drawn. *)
Definition contentOPF (book : Book.t) (options : ExportOptions) (uuid : string) : string :=
  let chapters := chaptersOf book in
  q "<?xml version='1.0' encoding='UTF-8'?>
<package xmlns='http://www.idpf.org/2007/opf' unique-identifier='bookid' version='2.0'>
  <metadata xmlns:dc='http://purl.org/dc/elements/1.1/' xmlns:opf='http://www.idpf.org/2007/opf'>
    <dc:title>"
  ++ escapeXML (Book.title book)
  ++ q "</dc:title>
    <dc:creator opf:role='aut'>"
  ++ escapeXML (Book.author book)
  ++ q "</dc:creator>
    <dc:subject>"
  ++ escapeXML (Book.genre book)
  ++ q "</dc:subject>
    <dc:description>"
  ++ escapeXML (orEmpty (Book.description book))
  ++ q "</dc:description>
    <dc:language>en</dc:language>
    <dc:identifier id='bookid'>"
  ++ uuid
  ++ q "</dc:identifier>
    <meta name='cover' content='cover-img'/>
  </metadata>
  
  <manifest>
    <item id='ncx' href='toc.ncx' media-type='application/x-dtbncx+xml'/>
    <item id='stylesheet' href='stylesheet.css' media-type='text/css'/>
    <item id='title' href='title.xhtml' media-type='application/xhtml+xml'/>
    <item id='toc' href='toc.xhtml' media-type='application/xhtml+xml'/>
    "
  ++ join (q "
    ") (mapi (fun _ index => manifestItem index) chapters)
  ++ q "
    "
  ++ (if withCover book options
      then q "<item id='cover-img' href='cover.jpg' media-type='image/jpeg'/>"
      else "")
  ++ q "
  </manifest>
  
  <spine toc='ncx'>
    <itemref idref='title'/>
    <itemref idref='toc'/>
    "
  ++ join (q "
    ") (mapi (fun _ index => spineItem index) chapters)
  ++ q "
  </spine>
  
  "
  ++ (if withCover book options
      then q "<guide><reference type='cover' title='Cover' href='title.xhtml'/></guide>"
      else "")
  ++ q "
</package>".

Definition createContentOPF (h : Host) (book : Book.t) (options : ExportOptions)
  : Exec string :=
  uuid <- generateUUID h ;;
  ret (contentOPF book options uuid).

Definition navPoint (chapter : BookChapter.t) (index : nat) : string :=
  q "
    <navPoint id='navpoint-" ++ natToString (index + 3) ++ q "' playOrder='"
  ++ natToString (index + 3) ++ q "'>
      <navLabel><text>" ++ escapeXML (BookChapter.title chapter) ++ q "</text></navLabel>
      <content src='chapter" ++ natToString (index + 1) ++ q ".xhtml'/>
    </navPoint>".

(** The navigation document around an identifier already drawn. *)
Definition tocNCX (book : Book.t) (uuid : string) : string :=
  let chapters := chaptersOf book in
  q "<?xml version='1.0' encoding='UTF-8'?>
<ncx xmlns='http://www.daisy.org/z3986/2005/ncx/' version='2005-1'>
  <head>
    <meta name='dtb:uid' content='"
  ++ uuid
  ++ q "'/>
    <meta name='dtb:depth' content='1'/>
    <meta name='dtb:totalPageCount' content='0'/>
    <meta name='dtb:maxPageNumber' content='0'/>
  </head>
  
  <docTitle>
    <text>"
  ++ escapeXML (Book.title book)
  ++ q "</text>
  </docTitle>
  
  <navMap>
    <navPoint id='navpoint-1' playOrder='1'>
      <navLabel><text>Title Page</text></navLabel>
      <content src='title.xhtml'/>
    </navPoint>
    <navPoint id='navpoint-2' playOrder='2'>
      <navLabel><text>Table of Contents</text></navLabel>
      <content src='toc.xhtml'/>
    </navPoint>
    "
  ++ join "" (mapi navPoint chapters)
  ++ q "
  </navMap>
</ncx>".

Definition createTOCNCX (h : Host) (book : Book.t) : Exec string :=
  uuid <- generateUUID h ;;
  ret (tocNCX book uuid).

Definition fontFamilyOr (options : ExportOptions) (d : string) : string :=
  if truthy (fontFamily options) then orEmpty (fontFamily options) else d.

Definition createKindleCSS (options : ExportOptions) : string :=
  q "
/* Kindle-optimized styles */
body {
  font-family: "
  ++ fontFamilyOr options "Georgia, serif"
  ++ q ";
  font-size: "
  ++ Num.toString (Num.orDefault (fontSize options) 1200%Z)
  ++ q "pt;
  line-height: "
  ++ Num.toString (Num.orDefault (lineSpacing options) 160%Z)
  ++ q ";
  margin: 0;
  padding: 1em;
}

h1, h2, h3 {
  page-break-before: always;
  margin-top: 2em;
  margin-bottom: 1em;
  font-weight: bold;
}

h1 { font-size: 1.5em; }
h2 { font-size: 1.3em; }
h3 { font-size: 1.1em; }

p {
  text-align: justify;
  text-indent: 1.5em;
  margin: 0;
  margin-bottom: 0.5em;
}

.title-page {
  text-align: center;
  page-break-after: always;
}

.chapter-title {
  text-align: center;
  font-size: 1.5em;
  margin-bottom: 2em;
  page-break-before: always;
}

@media amzn-kf8 {
  body { font-family: serif; }
}
".

Definition createEPUBCSS (options : ExportOptions) : string :=
  q "
/* Standard EPUB styles */
body {
  font-family: "
  ++ fontFamilyOr options "Georgia, serif"
  ++ q ";
  font-size: "
  ++ Num.toString (Num.orDefault (fontSize options) 1200%Z)
  ++ q "pt;
  line-height: "
  ++ Num.toString (Num.orDefault (lineSpacing options) 160%Z)
  ++ q ";
  margin: 0;
  padding: 1em;
}

h1, h2, h3 {
  margin-top: 2em;
  margin-bottom: 1em;
  font-weight: bold;
}

p {
  text-align: justify;
  text-indent: 1.5em;
  margin-bottom: 0.5em;
}

.title-page {
  text-align: center;
  page-break-after: always;
}

.chapter-title {
  text-align: center;
  font-size: 1.5em;
  margin-bottom: 2em;
  page-break-before: always;
}
".

Definition createTitlePage (book : Book.t) : string :=
  q "<?xml version='1.0' encoding='UTF-8'?>
<html xmlns='http://www.w3.org/1999/xhtml'>
<head>
  <title>"
  ++ escapeXML (Book.title book)
  ++ q "</title>
  <link rel='stylesheet' type='text/css' href='stylesheet.css'/>
</head>
<body>
  <div class='title-page'>
    <h1>"
  ++ escapeXML (Book.title book)
  ++ q "</h1>
    <h2>by "
  ++ escapeXML (Book.author book)
  ++ q "</h2>
    "
  ++ (if truthy (Book.description book)
      then "<p>" ++ escapeXML (orEmpty (Book.description book)) ++ "</p>"
      else "")
  ++ q "
  </div>
</body>
</html>".

Definition tocEntry (chapter : BookChapter.t) (index : nat) : string :=
  q "<li><a href='chapter" ++ natToString (index + 1) ++ q ".xhtml'>"
  ++ escapeXML (BookChapter.title chapter) ++ "</a></li>".

Definition createTOCPage (book : Book.t) : string :=
  let chapters := chaptersOf book in
  q "<?xml version='1.0' encoding='UTF-8'?>
<html xmlns='http://www.w3.org/1999/xhtml'>
<head>
  <title>Table of Contents</title>
  <link rel='stylesheet' type='text/css' href='stylesheet.css'/>
</head>
<body>
  <h1>Table of Contents</h1>
  <ul>
    "
  ++ join (q "
    ") (mapi tocEntry chapters)
  ++ q "
  </ul>
</body>
</html>".

Definition createChapterXHTML (chapter : BookChapter.t) (options : ExportOptions) : string :=
  q "<?xml version='1.0' encoding='UTF-8'?>
<html xmlns='http://www.w3.org/1999/xhtml'>
<head>
  <title>"
  ++ escapeXML (BookChapter.title chapter)
  ++ q "</title>
  <link rel='stylesheet' type='text/css' href='stylesheet.css'/>
</head>
<body>
  <h1 class='chapter-title'>"
  ++ escapeXML (BookChapter.title chapter)
  ++ q "</h1>
  <div class='chapter-content'>
    "
  ++ formatChapterContent (BookChapter.content chapter)
  ++ q "
  </div>
</body>
</html>".

Definition pdfChapter (chapter : BookChapter.t) : string :=
  q "
    <div class='chapter'>
      <h1 class='chapter-title'>" ++ escapeXML (BookChapter.title chapter) ++ q "</h1>
      " ++ formatChapterContent (BookChapter.content chapter) ++ q "
    </div>
  ".

Definition defaultMargins (m : Num.t) : Margins := mkMargins m m m m.

Definition createPDFHTML (book : Book.t) (options : ExportOptions) : string :=
  let chapters := chaptersOf book in
  let margins :=
    match margins options with
    | Some m => m
    | None => defaultMargins 100%Z
    end in
  q "<!DOCTYPE html>
<html>
<head>
  <title>"
  ++ escapeXML (Book.title book)
  ++ q "</title>
  <style>
    @page {
      size: "
  ++ match paperSize options with
     | Some a4 => "A4"
     | _ => "8.5in 11in"
     end
  ++ q ";
      margin: "
  ++ Num.toString (top margins)
  ++ q "in "
  ++ Num.toString (right margins)
  ++ q "in "
  ++ Num.toString (bottom margins)
  ++ q "in "
  ++ Num.toString (left margins)
  ++ q "in;
    }
    
    body {
      font-family: "
  ++ fontFamilyOr options "Georgia, serif"
  ++ q ";
      font-size: "
  ++ Num.toString (Num.orDefault (fontSize options) 1200%Z)
  ++ q "pt;
      line-height: "
  ++ Num.toString (Num.orDefault (lineSpacing options) 160%Z)
  ++ q ";
    }
    
    .title-page {
      text-align: center;
      page-break-after: always;
      padding-top: 25%;
    }
    
    .chapter {
      page-break-before: always;
    }
    
    .chapter-title {
      font-size: 1.5em;
      margin-bottom: 2em;
      text-align: center;
    }
    
    p {
      text-align: justify;
      text-indent: 1.5em;
      margin-bottom: 0.5em;
    }
  </style>
</head>
<body>
  <div class='title-page'>
    <h1>"
  ++ escapeXML (Book.title book)
  ++ q "</h1>
    <h2>by "
  ++ escapeXML (Book.author book)
  ++ q "</h2>
  </div>
  
  "
  ++ join "" (map pdfChapter chapters)
  ++ q "
</body>
</html>".

Definition createWordHTML (book : Book.t) (options : ExportOptions) : string :=
  let chapters := chaptersOf book in
  q "<!DOCTYPE html>
<html xmlns:o='urn:schemas-microsoft-com:office:office' xmlns:w='urn:schemas-microsoft-com:office:word'>
<head>
  <meta charset='UTF-8'>
  <title>"
  ++ escapeXML (Book.title book)
  ++ q "</title>
  <style>
    body {
      font-family: "
  ++ fontFamilyOr options "Times New Roman, serif"
  ++ q ";
      font-size: "
  ++ Num.toString (Num.orDefault (fontSize options) 1200%Z)
  ++ q "pt;
      line-height: "
  ++ Num.toString (Num.orDefault (lineSpacing options) 160%Z)
  ++ q ";
    }
    
    .title-page {
      text-align: center;
      page-break-after: always;
    }
    
    .chapter-title {
      font-size: 16pt;
      font-weight: bold;
      text-align: center;
      margin-bottom: 2em;
      page-break-before: always;
    }
    
    p {
      text-align: justify;
      text-indent: 0.5in;
      margin-bottom: 6pt;
    }
  </style>
</head>
<body>
  <div class='title-page'>
    <h1>"
  ++ escapeXML (Book.title book)
  ++ q "</h1>
    <h2>by "
  ++ escapeXML (Book.author book)
  ++ q "</h2>
  </div>
  
  "
  ++ join "" (map pdfChapter chapters)
  ++ q "
</body>
</html>".

(** Similar to PDF but with print-optimized styles. *)
Definition createPrintReadyHTML (book : Book.t) (options : ExportOptions) : string :=
  createPDFHTML book
    (mkOptions (format options) (includeImages options)
       (match paperSize options with
        | Some p => Some p
        | None => Some us_trade
        end)
       (match margins options with
        | Some m => Some m
        | None => Some (defaultMargins 75%Z)
        end)
       (fontSize options) (fontFamily options) (lineSpacing options)).

(** *** The exporters *)

(** [book.content.forEach((chapter, index) => oebps.file(...))]. *)
Fixpoint addChapters (index : nat) (chapters : list BookChapter.t)
    (options : ExportOptions) (zip : Zip) : Zip :=
  match chapters with
  | [] => zip
  | chapter :: rest =>
      addChapters (S index) rest options
        (zipSet ("OEBPS/chapter" ++ natToString (index + 1) ++ ".xhtml")
                (Text (createChapterXHTML chapter options)) zip)
  end.

(** The cover step: fetch and embed; a failure is logged and skipped. *)
Definition addCover (h : Host) (book : Book.t) (options : ExportOptions) (zip : Zip)
  : Exec Zip :=
  if truthy (Book.coverUrl book) && includeImages options
  then tryCatch
         (coverBlob <- fetchCover h (orEmpty (Book.coverUrl book)) ;;
          ret (zipSet "OEBPS/cover.jpg" (Binary coverBlob) zip))
         (fun e => emit (ConsoleWarn "Could not include cover image:" e) ;;; ret zip)
  else ret zip.

Definition exportToKindle (h : Host) (book : Book.t) (options : ExportOptions) : Exec unit :=
  let zip := zipSet "mimetype" (Text "application/epub+zip") [] in
  let zip := zipFolder "META-INF" zip in
  let zip := zipSet "META-INF/container.xml" (Text createContainerXML) zip in
  let zip := zipFolder "OEBPS" zip in
  opf <- createContentOPF h book options ;;
  let zip := zipSet "OEBPS/content.opf" (Text opf) zip in
  ncx <- createTOCNCX h book ;;
  let zip := zipSet "OEBPS/toc.ncx" (Text ncx) zip in
  let zip := zipSet "OEBPS/stylesheet.css" (Text (createKindleCSS options)) zip in
  let zip := zipSet "OEBPS/title.xhtml" (Text (createTitlePage book)) zip in
  let zip := zipSet "OEBPS/toc.xhtml" (Text (createTOCPage book)) zip in
  let zip := addChapters 0 (chaptersOf book) options zip in
  zip <- addCover h book options zip ;;
  content <- generateAsync h zip ;;
  saveAs h content (sanitizeFilename (Book.title book) ++ "_kindle.epub").

Definition exportToEPUB (h : Host) (book : Book.t) (options : ExportOptions) : Exec unit :=
  let zip := zipSet "mimetype" (Text "application/epub+zip") [] in
  let zip := zipFolder "META-INF" zip in
  let zip := zipSet "META-INF/container.xml" (Text createContainerXML) zip in
  let zip := zipFolder "OEBPS" zip in
  opf <- createContentOPF h book options ;;
  let zip := zipSet "OEBPS/content.opf" (Text opf) zip in
  ncx <- createTOCNCX h book ;;
  let zip := zipSet "OEBPS/toc.ncx" (Text ncx) zip in
  let zip := zipSet "OEBPS/stylesheet.css" (Text (createEPUBCSS options)) zip in
  let zip := zipSet "OEBPS/title.xhtml" (Text (createTitlePage book)) zip in
  let zip := zipSet "OEBPS/toc.xhtml" (Text (createTOCPage book)) zip in
  let zip := addChapters 0 (chaptersOf book) options zip in
  zip <- addCover h book options zip ;;
  content <- generateAsync h zip ;;
  saveAs h content (sanitizeFilename (Book.title book) ++ ".epub").

(** The print window, when there is one: write, close, print on load. *)
Definition printIn (h : Host) (htmlContent : string) : Exec unit :=
  failing (writeFails h htmlContent) ;;;
  emit (DocumentWrite htmlContent) ;;;
  emit DocumentClose ;;;
  emit OnloadPrintSet.

Definition exportToPDF (h : Host) (book : Book.t) (options : ExportOptions) : Exec unit :=
  let htmlContent := createPDFHTML book options in
  if windowOpens h
  then printIn h htmlContent
  else saveAs h (PartsBlob [htmlContent] "text/html")
              (sanitizeFilename (Book.title book) ++ "_print.html").

Definition exportToDocx (h : Host) (book : Book.t) (options : ExportOptions) : Exec unit :=
  let htmlContent := createWordHTML book options in
  saveAs h
    (PartsBlob [htmlContent]
       "application/vnd.openxmlformats-officedocument.wordprocessingml.document")
    (sanitizeFilename (Book.title book) ++ ".docx").

Definition exportPrintReady (h : Host) (book : Book.t) (options : ExportOptions) : Exec unit :=
  let htmlContent := createPrintReadyHTML book options in
  if windowOpens h
  then printIn h htmlContent
  else ret tt.

(** The body of [exportBook]'s [try]: the [switch] on the format. *)
Definition exportSwitch (h : Host) (book : Book.t) (options : ExportOptions) : Exec unit :=
  match format options with
  | kindle => exportToKindle h book options
  | epub => exportToEPUB h book options
  | pdf => exportToPDF h book options
  | docx => exportToDocx h book options
  | print_ready => exportPrintReady h book options
  | otherFormat name => throw (ErrorObj ("Unsupported export format: " ++ name))
  end.

Definition exportBook (h : Host) (book : Book.t) (options : ExportOptions) : Exec unit :=
  tryCatch (exportSwitch h book options)
    (fun error =>
       let errorMessage :=
         match error with
         | ErrorObj message => message
         | NotAnError => "Unknown error"
         end in
       throw (ErrorObj ("Export failed: " ++ errorMessage))).

End ExportUtils.

(* ------------------------------------------------------------------ *)
(** ** [validateFileType] ([documentUtils.ts], [documentProcessor.ts]) *)
Module DocumentUtils.
Import Js.

Definition allowedExtensions : list string :=
  ["pdf"; "docx"; "odt"; "rtf"; "txt"; "md"; "markdown"; "ods"; "odp"].

Definition validateFileType (filename : string) : bool :=
  let extension := pop (split "." (toLowerCase filename)) in
  arrayIncludes allowedExtensions (orEmpty extension).

Definition calculateWordCount (text : string) : nat :=
  List.length
    (filter (fun word => (0 <? String.length word)%nat) (splitWs (trim text))).

End DocumentUtils.

(* ------------------------------------------------------------------ *)
(** ** The server's document processor ([services/documentProcessor.ts]) *)
Module DocumentProcessor.
Import Js.

Record ProcessedDocument := mkProcessed {
  text : string;
  images : list BookImage.t;
  summary : string
}.

(** [file] is the upload decoded as UTF-8 and [draw n] the value of
    [Math.floor(Math.random() * n)]. *)
Definition processTextFile (file : string) : ProcessedDocument :=
  let text := file in
  mkProcessed (trim text) []
    ("Text document with " ++ natToString (List.length (splitWs text)) ++ " words").

Definition processPdfFile (draw : N -> N) (file : string) : ProcessedDocument :=
  mkProcessed
    ("PDF content extracted from file. Word count: approximately "
     ++ nToString (draw 10000 + 1000)%N ++ " words.")
    [] "PDF document processed and text extracted".

Definition processDocxFile (draw : N -> N) (file : string) : ProcessedDocument :=
  mkProcessed
    ("DOCX content extracted from file. Word count: approximately "
     ++ nToString (draw 15000 + 2000)%N ++ " words.")
    [] "DOCX document processed and text extracted".

Definition processOtherFormats (draw : N -> N) (file : string) (extension : string)
  : ProcessedDocument :=
  mkProcessed
    (toUpperCase extension
     ++ " content extracted from file. Word count: approximately "
     ++ nToString (draw 8000 + 1500)%N ++ " words.")
    [] (toUpperCase extension ++ " document processed and text extracted").

(** The [switch] of [processDocument]. *)
Definition dispatch (draw : N -> N) (file : string) (extension : option string)
  : ExportUtils.Thrown + ProcessedDocument :=
  match extension with
  | Some e =>
      if String.eqb e "txt" || String.eqb e "md" || String.eqb e "markdown"
      then inr (processTextFile file)
      else if String.eqb e "pdf" then inr (processPdfFile draw file)
      else if String.eqb e "docx" then inr (processDocxFile draw file)
      else if String.eqb e "odt" || String.eqb e "rtf"
      then inr (processOtherFormats draw file e)
      else inl (ExportUtils.ErrorObj ("Unsupported file format: " ++ e))
  | None => inl (ExportUtils.ErrorObj "Unsupported file format: undefined")
  end.

Definition processDocument (draw : N -> N) (file : string) (filename : string)
  : ExportUtils.Thrown + ProcessedDocument :=
  let extension := pop (split "." (toLowerCase filename)) in
  match dispatch draw file extension with
  | inr document => inr document
  | inl error =>
      let errorMessage :=
        match error with
        | ExportUtils.ErrorObj message => message
        | ExportUtils.NotAnError => "Unknown error"
        end in
      inl (ExportUtils.ErrorObj ("Failed to process document: " ++ errorMessage))
  end.

Definition calculateWordCount (text : string) : nat :=
  List.length
    (filter (fun word => (0 <? String.length word)%nat) (splitWs (trim text))).

End DocumentProcessor.

(* ------------------------------------------------------------------ *)
(** ** The server's storage ([MemStorage]) *)

(** A JavaScript [Map] with string keys: the entries in insertion order,
    one per key. *)
Module JsMap.

Definition t (V : Type) : Type := list (string * V).

Definition empty {V} : t V := [].

Fixpoint get {V} (k : string) (m : t V) : option V :=
  match m with
  | [] => None
  | (k', v) :: r => if String.eqb k' k then Some v else get k r
  end.

Definition has {V} (k : string) (m : t V) : bool :=
  match get k m with
  | Some _ => true
  | None => false
  end.

(** [set] keeps the position of a key already present. *)
Fixpoint set {V} (k : string) (v : V) (m : t V) : t V :=
  match m with
  | [] => [(k, v)]
  | (k', v') :: r => if String.eqb k' k then (k', v) :: r else (k', v') :: set k v r
  end.

Definition remove {V} (k : string) (m : t V) : t V :=
  filter (fun e => negb (String.eqb (fst e) k)) m.

(** [delete] answers whether the key was present. *)
Definition delete {V} (k : string) (m : t V) : bool * t V := (has k m, remove k m).

Definition values {V} (m : t V) : list V := map snd m.

Definition keys {V} (m : t V) : list string := map fst m.

End JsMap.

Module Chapter.
Record t := mk {
  id : string;
  bookId : string;
  title : string;
  content : string;
  order : Z;
  wordCount : option Z;
  status : option string;
  createdAt : option Z;
  updatedAt : option Z
}.
End Chapter.

Module InsertChapter.
Record t := mk {
  bookId : string;
  title : string;
  content : string;
  order : Z;
  wordCount : option Z;
  status : option string
}.
End InsertChapter.

(** [Partial<InsertChapter>]: [None] is a property that is absent. *)
Module PartialChapter.
Record t := mk {
  bookId : option string;
  title : option string;
  content : option string;
  order : option Z;
  wordCount : option (option Z);
  status : option (option string)
}.
End PartialChapter.

Module Cover.
Record t := mk {
  id : string;
  bookId : string;
  imageUrl : string;
  style : string;
  colorScheme : string;
  isSelected : string;
  createdAt : option Z
}.
End Cover.

Module InsertCover.
Record t := mk {
  bookId : string;
  imageUrl : string;
  style : string;
  colorScheme : string;
  isSelected : option string
}.
End InsertCover.

Module PartialCover.
Record t := mk {
  bookId : option string;
  imageUrl : option string;
  style : option string;
  colorScheme : option string;
  isSelected : option string
}.
End PartialCover.

Module User.
Record t := mk {
  id : string;
  username : string;
  password : string;
  email : option string;
  apiKey : option string
}.
End User.

Module InsertUser.
Record t := mk {
  username : string;
  password : string;
  email : option string;
  apiKey : option string
}.
End InsertUser.

Module PartialUser.
Record t := mk {
  username : option string;
  password : option string;
  email : option (option string);
  apiKey : option (option string)
}.
End PartialUser.

Module InsertBook.
Record t := mk {
  title : string;
  author : string;
  genre : string;
  description : option string;
  keywords : option (list string);
  content : option (list BookChapter.t);
  coverUrl : option string;
  images : option (list BookImage.t);
  sourceFile : option string;
  targetLength : option string;
  writingStyle : option string;
  progress : option Z;
  status : option string
}.
End InsertBook.

Module PartialBook.
Record t := mk {
  title : option string;
  author : option string;
  genre : option string;
  description : option (option string);
  keywords : option (option (list string));
  content : option (option (list BookChapter.t));
  coverUrl : option (option string);
  images : option (option (list BookImage.t));
  sourceFile : option (option string);
  targetLength : option (option string);
  writingStyle : option (option string);
  progress : option (option Z);
  status : option string
}.
End PartialBook.

Module BookStats.
Record t := mk {
  booksInProgress : nat;
  publishedBooks : nat;
  aiWordsGenerated : Z;
  monthlyRevenue : string
}.
End BookStats.

Module MemStorage.

Record t := mk {
  books : JsMap.t Book.t;
  chapters : JsMap.t Chapter.t;
  covers : JsMap.t Cover.t;
  users : JsMap.t User.t
}.

(** [constructor()]. *)
Definition new : t := mk JsMap.empty JsMap.empty JsMap.empty JsMap.empty.

(** [Array.prototype.sort] with a consistent comparator is a stable sort;
    [le a b] says that the comparator does not put [b] before [a]. *)
Fixpoint insertBy {A} (le : A -> A -> bool) (x : A) (l : list A) : list A :=
  match l with
  | [] => [x]
  | y :: r => if le x y then x :: l else y :: insertBy le x r
  end.

Definition sortBy {A} (le : A -> A -> bool) (l : list A) : list A :=
  fold_right (insertBy le) [] l.

(** [new Date(d).getTime()] for [d : Date | null]. *)
Definition getTime (d : option Z) : Z :=
  match d with
  | Some ms => ms
  | None => 0%Z
  end.

(** [x || null] on a string. *)
Definition orNull (x : option string) : option string :=
  if Js.truthy x then x else None.

(** [{...a, ...b}], one property at a time. *)
Definition over {A} (b : option A) (a : A) : A :=
  match b with
  | Some v => v
  | None => a
  end.

(** *** Books *)

Definition getBook (id : string) (st : t) : option Book.t := JsMap.get id (books st).

Definition getBooks (st : t) : list Book.t :=
  sortBy (fun a b => (getTime (Book.createdAt b) <=? getTime (Book.createdAt a))%Z)
         (JsMap.values (books st)).

Definition createBook (insertBook : InsertBook.t) (id : string) (now : Z) (st : t)
  : Book.t * t :=
  let book :=
    Book.mk id
      (InsertBook.title insertBook)
      (InsertBook.author insertBook)
      (InsertBook.genre insertBook)
      (orNull (InsertBook.description insertBook))
      (InsertBook.keywords insertBook)
      (InsertBook.content insertBook)
      (orNull (InsertBook.coverUrl insertBook))
      (InsertBook.images insertBook)
      (orNull (InsertBook.sourceFile insertBook))
      (orNull (InsertBook.targetLength insertBook))
      (orNull (InsertBook.writingStyle insertBook))
      (Some (over (InsertBook.progress insertBook) 0%Z))
      (if Js.truthy (InsertBook.status insertBook)
       then Js.orEmpty (InsertBook.status insertBook) else "draft")
      (Some now) (Some now) in
  (book, mk (JsMap.set id book (books st)) (chapters st) (covers st) (users st)).

Definition updateBook (id : string) (updateBook : PartialBook.t) (now : Z) (st : t)
  : option Book.t * t :=
  match JsMap.get id (books st) with
  | None => (None, st)
  | Some existing =>
      let updated :=
        Book.mk (Book.id existing)
          (over (PartialBook.title updateBook) (Book.title existing))
          (over (PartialBook.author updateBook) (Book.author existing))
          (over (PartialBook.genre updateBook) (Book.genre existing))
          (over (PartialBook.description updateBook) (Book.description existing))
          (over (PartialBook.keywords updateBook) (Book.keywords existing))
          (over (PartialBook.content updateBook) (Book.content existing))
          (over (PartialBook.coverUrl updateBook) (Book.coverUrl existing))
          (over (PartialBook.images updateBook) (Book.images existing))
          (over (PartialBook.sourceFile updateBook) (Book.sourceFile existing))
          (over (PartialBook.targetLength updateBook) (Book.targetLength existing))
          (over (PartialBook.writingStyle updateBook) (Book.writingStyle existing))
          (over (PartialBook.progress updateBook) (Book.progress existing))
          (over (PartialBook.status updateBook) (Book.status existing))
          (Book.createdAt existing) (Some now) in
      (Some updated,
       mk (JsMap.set id updated (books st)) (chapters st) (covers st) (users st))
  end.

(** [list.forEach(x => map.delete(x.id))]. *)
Definition deleteEach {V} (idOf : V -> string) (toDelete : list V) (m : JsMap.t V)
  : JsMap.t V :=
  fold_left (fun acc x => snd (JsMap.delete (idOf x) acc)) toDelete m.

Definition deleteBook (id : string) (st : t) : bool * t :=
  (* Also delete related chapters and covers *)
  let chaptersToDelete :=
    filter (fun chapter => String.eqb (Chapter.bookId chapter) id)
           (JsMap.values (chapters st)) in
  let chapters' := deleteEach Chapter.id chaptersToDelete (chapters st) in
  let coversToDelete :=
    filter (fun cover => String.eqb (Cover.bookId cover) id)
           (JsMap.values (covers st)) in
  let covers' := deleteEach Cover.id coversToDelete (covers st) in
  let (deleted, books') := JsMap.delete id (books st) in
  (deleted, mk books' chapters' covers' (users st)).

(** *** Chapters *)

Definition getChaptersByBookId (bookId : string) (st : t) : list Chapter.t :=
  sortBy (fun a b => (Chapter.order a <=? Chapter.order b)%Z)
    (filter (fun chapter => String.eqb (Chapter.bookId chapter) bookId)
            (JsMap.values (chapters st))).

Definition createChapter (insertChapter : InsertChapter.t) (id : string) (now : Z) (st : t)
  : Chapter.t * t :=
  let chapter :=
    Chapter.mk id
      (InsertChapter.bookId insertChapter)
      (InsertChapter.title insertChapter)
      (InsertChapter.content insertChapter)
      (InsertChapter.order insertChapter)
      (InsertChapter.wordCount insertChapter)
      (InsertChapter.status insertChapter)
      (Some now) (Some now) in
  (chapter, mk (books st) (JsMap.set id chapter (chapters st)) (covers st) (users st)).

Definition updateChapter (id : string) (updateChapter : PartialChapter.t) (now : Z) (st : t)
  : option Chapter.t * t :=
  match JsMap.get id (chapters st) with
  | None => (None, st)
  | Some existing =>
      let updated :=
        Chapter.mk (Chapter.id existing)
          (over (PartialChapter.bookId updateChapter) (Chapter.bookId existing))
          (over (PartialChapter.title updateChapter) (Chapter.title existing))
          (over (PartialChapter.content updateChapter) (Chapter.content existing))
          (over (PartialChapter.order updateChapter) (Chapter.order existing))
          (over (PartialChapter.wordCount updateChapter) (Chapter.wordCount existing))
          (over (PartialChapter.status updateChapter) (Chapter.status existing))
          (Chapter.createdAt existing) (Some now) in
      (Some updated,
       mk (books st) (JsMap.set id updated (chapters st)) (covers st) (users st))
  end.

Definition deleteChapter (id : string) (st : t) : bool * t :=
  let (deleted, chapters') := JsMap.delete id (chapters st) in
  (deleted, mk (books st) chapters' (covers st) (users st)).

(** *** Covers *)

Definition getCoversByBookId (bookId : string) (st : t) : list Cover.t :=
  sortBy (fun a b => (getTime (Cover.createdAt b) <=? getTime (Cover.createdAt a))%Z)
    (filter (fun cover => String.eqb (Cover.bookId cover) bookId)
            (JsMap.values (covers st))).

Definition createCover (insertCover : InsertCover.t) (id : string) (now : Z) (st : t)
  : Cover.t * t :=
  let cover :=
    Cover.mk id
      (InsertCover.bookId insertCover)
      (InsertCover.imageUrl insertCover)
      (InsertCover.style insertCover)
      (InsertCover.colorScheme insertCover)
      (if Js.truthy (InsertCover.isSelected insertCover)
       then Js.orEmpty (InsertCover.isSelected insertCover) else "false")
      (Some now) in
  (cover, mk (books st) (chapters st) (JsMap.set id cover (covers st)) (users st)).

Definition updateCover (id : string) (updateCover : PartialCover.t) (st : t)
  : option Cover.t * t :=
  match JsMap.get id (covers st) with
  | None => (None, st)
  | Some existing =>
      let updated :=
        Cover.mk (Cover.id existing)
          (over (PartialCover.bookId updateCover) (Cover.bookId existing))
          (over (PartialCover.imageUrl updateCover) (Cover.imageUrl existing))
          (over (PartialCover.style updateCover) (Cover.style existing))
          (over (PartialCover.colorScheme updateCover) (Cover.colorScheme existing))
          (over (PartialCover.isSelected updateCover) (Cover.isSelected existing))
          (Cover.createdAt existing) in
      (Some updated,
       mk (books st) (chapters st) (JsMap.set id updated (covers st)) (users st))
  end.

Definition deleteCover (id : string) (st : t) : bool * t :=
  let (deleted, covers') := JsMap.delete id (covers st) in
  (deleted, mk (books st) (chapters st) covers' (users st)).

(** *** Users *)

Definition getUser (id : string) (st : t) : option User.t := JsMap.get id (users st).

Definition getUserByUsername (username : string) (st : t) : option User.t :=
  find (fun user => String.eqb (User.username user) username) (JsMap.values (users st)).

Definition createUser (insertUser : InsertUser.t) (id : string) (st : t) : User.t * t :=
  let user :=
    User.mk id
      (InsertUser.username insertUser)
      (InsertUser.password insertUser)
      (InsertUser.email insertUser)
      (InsertUser.apiKey insertUser) in
  (user, mk (books st) (chapters st) (covers st) (JsMap.set id user (users st))).

Definition updateUser (id : string) (updateUser : PartialUser.t) (st : t)
  : option User.t * t :=
  match JsMap.get id (users st) with
  | None => (None, st)
  | Some existing =>
      let updated :=
        User.mk (User.id existing)
          (over (PartialUser.username updateUser) (User.username existing))
          (over (PartialUser.password updateUser) (User.password existing))
          (over (PartialUser.email updateUser) (User.email existing))
          (over (PartialUser.apiKey updateUser) (User.apiKey existing)) in
      (Some updated,
       mk (books st) (chapters st) (covers st) (JsMap.set id updated (users st)))
  end.

(** *** Stats *)


End MemStorage.

(* ------------------------------------------------------------------ *)
(** ** Notions of the specification, and readers of generated documents *)
Module Spec.
Import Js.

(** Standard XML unescaping: one pass from the left, each of the five
    predefined entity references decoded to its character.  [skip] counts
    the code units of a reference still to be passed over. *)
Fixpoint unescape_from (skip : nat) (s : string) : string :=
  match s with
  | EmptyString => EmptyString
  | String c rest =>
      match skip with
      | S k => unescape_from k rest
      | O =>
          if startsWith "&amp;" s then String "&" (unescape_from 4 rest)
          else if startsWith "&lt;" s then String "<" (unescape_from 3 rest)
          else if startsWith "&gt;" s then String ">" (unescape_from 3 rest)
          else if startsWith "&quot;" s then String dquote (unescape_from 5 rest)
          else if startsWith "&#39;" s then String "'" (unescape_from 4 rest)
          else String c (unescape_from 0 rest)
      end
  end.

Definition unescapeXML (s : string) : string := unescape_from 0 s.

(** Sanitization as the specification words it: every maximal run of
    non-alphanumeric characters becomes a single underscore, and the
    result is lower-cased. *)
Fixpoint collapseRuns (inRun : bool) (s : string) : string :=
  match s with
  | EmptyString => EmptyString
  | String c rest =>
      if isAlnum c then String c (collapseRuns false rest)
      else if inRun then collapseRuns true rest
      else String "_" (collapseRuns true rest)
  end.

Definition sanitizeRuns (s : string) : string := toLowerCase (collapseRuns false s).

(** A file name has an extension when it contains a dot. *)
Definition hasExtension (filename : string) : bool := includes "." filename.

(** Reading a generated document: for every occurrence of [opening], the
    text that follows it up to the next [stop]. *)
Fixpoint takeUntil (stop : ascii) (s : string) : string :=
  match s with
  | EmptyString => EmptyString
  | String c rest => if Ascii.eqb c stop then EmptyString else String c (takeUntil stop rest)
  end.

Fixpoint drop (n : nat) (s : string) : string :=
  match n, s with
  | S k, String _ rest => drop k rest
  | _, _ => s
  end.

Fixpoint elements (opening : string) (stop : ascii) (s : string) : list string :=
  match s with
  | EmptyString => []
  | String _ rest =>
      if startsWith opening s
      then takeUntil stop (drop (String.length opening) s) :: elements opening stop rest
      else elements opening stop rest
  end.

(** [lacks c s]: the code unit [c] does not occur in [s]. *)
Fixpoint lacks (c : ascii) (s : string) : bool :=
  match s with
  | EmptyString => true
  | String x rest => negb (Ascii.eqb x c) && lacks c rest
  end.

(** A piece of text is self-contained for a reader when every occurrence
    of [opening] that starts in it also meets its [stop] in it, and no
    occurrence can begin in it and end beyond it. *)
Fixpoint selfContained (opening : string) (stop : ascii) (s : string) : bool :=
  match s with
  | EmptyString => true
  | String _ rest =>
      (if startsWith opening s
       then negb (lacks stop (drop (String.length opening) s))
       else negb (startsWith s opening))
      && selfContained opening stop rest
  end.

(** The attribute text of every [<item .../>] of a package document. *)
Definition manifestItems (opf : string) : list string := elements "<item " ">" opf.

(** The attribute text of every [<itemref .../>] of a package document. *)
Definition spineItems (opf : string) : list string := elements "<itemref " ">" opf.

(** What the manifest and the spine of a package document are expected to
    hold: the attribute text of the fixed entries, of the entry of the
    chapter at [index], and of the cover image. *)
Definition staticManifest : list string :=
  [ q "id='ncx' href='toc.ncx' media-type='application/x-dtbncx+xml'/";
    q "id='stylesheet' href='stylesheet.css' media-type='text/css'/";
    q "id='title' href='title.xhtml' media-type='application/xhtml+xml'/";
    q "id='toc' href='toc.xhtml' media-type='application/xhtml+xml'/" ].

Definition chapterManifest (index : nat) : string :=
  q "id='chapter" ++ natToString (index + 1) ++ q "' href='chapter"
  ++ natToString (index + 1) ++ q ".xhtml' media-type='application/xhtml+xml'/".

Definition coverManifest : string :=
  q "id='cover-img' href='cover.jpg' media-type='image/jpeg'/".

Definition staticSpine : list string := [ q "idref='title'/"; q "idref='toc'/" ].

Definition chapterSpine (index : nat) : string :=
  q "idref='chapter" ++ natToString (index + 1) ++ q "'/".

(** The [dc:identifier] of a package document. *)
Definition packageIdentifier (opf : string) : list string :=
  elements (q "<dc:identifier id='bookid'>") "<" opf.

(** The [dtb:uid] of a navigation document. *)
Definition ncxUid (ncx : string) : list string :=
  elements (q "<meta name='dtb:uid' content='") dquote ncx.

(** The identifier [generateUUID] gives when the random sequence of the
    host is at position [cur]. *)
Definition uuidAt (h : ExportUtils.Host) (cur : nat) : string :=
  match ExportUtils.outcome (ExportUtils.generateUUID h cur) with
  | inr uuid => uuid
  | inl _ => EmptyString
  end.

(** The downloads offered during a run. *)
Definition downloads (evs : list ExportUtils.Event) : list (ExportUtils.Blob * string) :=
  flat_map (fun ev =>
              match ev with
              | ExportUtils.Download data filename => [(data, filename)]
              | _ => []
              end) evs.

(** What escaping does to one code unit. *)
Definition escapeChar (c : ascii) : string :=
  if isChar "&" c then "&amp;"
  else if isChar "<" c then "&lt;"
  else if isChar ">" c then "&gt;"
  else if isChar dquote c then "&quot;"
  else if isChar "'" c then "&#39;"
  else String c "".

(** One code unit of a sanitized name. *)
Definition sanitizeChar (c : ascii) : ascii :=
  if isAlnum c then toLowerCaseChar c else "_"%char.

Fixpoint mapString (f : ascii -> ascii) (s : string) : string :=
  match s with
  | EmptyString => EmptyString
  | String c rest => String (f c) (mapString f rest)
  end.

(** The representation invariant of the storage: in the chapter and cover
    maps every entry sits under its own [id], and no key occurs twice. *)
Definition keyed {V} (idOf : V -> string) (m : JsMap.t V) : Prop :=
  NoDup (JsMap.keys m) /\ Forall (fun e => idOf (snd e) = fst e) m.

Record wellFormed (st : MemStorage.t) : Prop := mkWellFormed {
  wf_books : keyed Book.id (MemStorage.books st);
  wf_chapters : keyed Chapter.id (MemStorage.chapters st);
  wf_covers : keyed Cover.id (MemStorage.covers st);
  wf_users : keyed User.id (MemStorage.users st)
}.

(** The states the public interface can produce from a new storage. *)
Inductive reachable : MemStorage.t -> Prop :=
  | reach_new : reachable MemStorage.new
  | reach_createBook st b id now :
      reachable st -> reachable (snd (MemStorage.createBook b id now st))
  | reach_updateBook st id b now :
      reachable st -> reachable (snd (MemStorage.updateBook id b now st))
  | reach_deleteBook st id :
      reachable st -> reachable (snd (MemStorage.deleteBook id st))
  | reach_createChapter st c id now :
      reachable st -> reachable (snd (MemStorage.createChapter c id now st))
  | reach_updateChapter st id c now :
      reachable st -> reachable (snd (MemStorage.updateChapter id c now st))
  | reach_deleteChapter st id :
      reachable st -> reachable (snd (MemStorage.deleteChapter id st))
  | reach_createCover st c id now :
      reachable st -> reachable (snd (MemStorage.createCover c id now st))
  | reach_updateCover st id c :
      reachable st -> reachable (snd (MemStorage.updateCover id c st))
  | reach_deleteCover st id :
      reachable st -> reachable (snd (MemStorage.deleteCover id st))
  | reach_createUser st u id :
      reachable st -> reachable (snd (MemStorage.createUser u id st))
  | reach_updateUser st id u :
      reachable st -> reachable (snd (MemStorage.updateUser id u st)).

Definition b2n (b : bool) : nat := if b then 1 else 0.

(** A piece of a split that is counted as a word. *)
Definition nonEmpty (word : string) : bool := (0 <? String.length word)%nat.

(** Counting words directly: the number of places where a code unit that
    is not white space begins the text or follows white space. *)
Fixpoint countWords (inWord : bool) (s : string) : nat :=
  match s with
  | EmptyString => 0
  | String c rest =>
      if isWhiteSpace c then countWords false rest
      else (if inWord then 0 else 1) + countWords true rest
  end.

(** The text is empty or begins with white space; the text ends with
    white space. *)
Definition startsBlank (s : string) : bool :=
  match s with
  | EmptyString => true
  | String c _ => isWhiteSpace c
  end.

Fixpoint endsBlank (s : string) : bool :=
  match s with
  | EmptyString => false
  | String c EmptyString => isWhiteSpace c
  | String _ rest => endsBlank rest
  end.

(** The extensions [processDocument] has a case for. *)
Definition processedExtensions : list string :=
  ["txt"; "md"; "markdown"; "pdf"; "docx"; "odt"; "rtf"].

(** Every code unit of [s] satisfies [p]. *)
Fixpoint allChars (p : ascii -> bool) (s : string) : bool :=
  match s with
  | EmptyString => true
  | String c rest => p c && allChars p rest
  end.

(** [[a-z0-9_]]. *)
Definition isSanitized (c : ascii) : bool :=
  between 97 122 c || between 48 57 c || Ascii.eqb c "_".

(** [[0-9a-f]]. *)
Definition isHexDigit (c : ascii) : bool :=
  between 48 57 c || between 97 102 c.

(** The separator of paragraphs. *)
Definition blankLine : string := String newline (String newline "").

(** [[89ab]]. *)
Definition isVariantDigit (c : ascii) : bool :=
  Ascii.eqb c "8" || Ascii.eqb c "9" || Ascii.eqb c "a" || Ascii.eqb c "b".

(** [u] has the shape of [template]: a hexadecimal digit for each [x], one
    of 8, 9, a, b for each [y], the template's own code unit elsewhere,
    and nothing more. *)
Fixpoint hasShape (template u : string) : bool :=
  match template, u with
  | EmptyString, EmptyString => true
  | String t template', String c u' =>
      (if Ascii.eqb t "x" then isHexDigit c
       else if Ascii.eqb t "y" then isVariantDigit c
       else Ascii.eqb c t)
      && hasShape template' u'
  | _, _ => false
  end.

(** Sorted lists, for a comparison given as a boolean. *)
Fixpoint sortedBy {A} (le : A -> A -> bool) (l : list A) : Prop :=
  match l with
  | [] => True
  | x :: r => (forall y, In y r -> le x y = true) /\ sortedBy le r
  end.

(** The file of the chapter at [index], and the entries every archive
    starts with. *)
Definition chapterFile (index : nat) : string :=
  "chapter" ++ natToString (index + 1) ++ ".xhtml".

Definition chapterEntry (index : nat) : string := "OEBPS/" ++ chapterFile index.

Definition fixedEntries : list string :=
  [ "mimetype"; "META-INF/"; "META-INF/container.xml"; "OEBPS/";
    "OEBPS/content.opf"; "OEBPS/toc.ncx"; "OEBPS/stylesheet.css";
    "OEBPS/title.xhtml"; "OEBPS/toc.xhtml" ].

(** The archive [exportToEPUB] and [exportToKindle] have built when they
    come to the cover, [css] being the stylesheet of the one or the other;
    and what they do from there on. *)
Definition builtArchive (css : string) (h : ExportUtils.Host) (book : Book.t)
    (options : ExportUtils.ExportOptions) (cur : nat) : ExportUtils.Zip :=
  let zip := ExportUtils.zipSet "mimetype" (ExportUtils.Text "application/epub+zip") [] in
  let zip := ExportUtils.zipFolder "META-INF" zip in
  let zip := ExportUtils.zipSet "META-INF/container.xml"
               (ExportUtils.Text ExportUtils.createContainerXML) zip in
  let zip := ExportUtils.zipFolder "OEBPS" zip in
  let zip := ExportUtils.zipSet "OEBPS/content.opf"
               (ExportUtils.Text (ExportUtils.contentOPF book options (uuidAt h cur))) zip in
  let zip := ExportUtils.zipSet "OEBPS/toc.ncx"
               (ExportUtils.Text (ExportUtils.tocNCX book (uuidAt h (31 + cur)))) zip in
  let zip := ExportUtils.zipSet "OEBPS/stylesheet.css" (ExportUtils.Text css) zip in
  let zip := ExportUtils.zipSet "OEBPS/title.xhtml"
               (ExportUtils.Text (ExportUtils.createTitlePage book)) zip in
  let zip := ExportUtils.zipSet "OEBPS/toc.xhtml"
               (ExportUtils.Text (ExportUtils.createTOCPage book)) zip in
  ExportUtils.addChapters 0 (ExportUtils.chaptersOf book) options zip.

Definition finishArchive (h : ExportUtils.Host) (book : Book.t)
    (options : ExportUtils.ExportOptions) (zip : ExportUtils.Zip) (filename : string)
  : ExportUtils.Exec unit :=
  ExportUtils.bind (ExportUtils.addCover h book options zip) (fun zip =>
  ExportUtils.bind (ExportUtils.generateAsync h zip) (fun content =>
  ExportUtils.saveAs h content filename)).

(** The archive after the cover step, and the warnings of that step. *)
Definition withCoverImage (h : ExportUtils.Host) (book : Book.t)
    (options : ExportUtils.ExportOptions) (zip : ExportUtils.Zip) : ExportUtils.Zip :=
  if truthy (Book.coverUrl book) && ExportUtils.includeImages options
  then match ExportUtils.fetchBlob h (orEmpty (Book.coverUrl book)) with
       | inr body => ExportUtils.zipSet "OEBPS/cover.jpg" (ExportUtils.Binary body) zip
       | inl _ => zip
       end
  else zip.

Definition coverWarnings (h : ExportUtils.Host) (book : Book.t)
    (options : ExportUtils.ExportOptions) : list ExportUtils.Event :=
  if truthy (Book.coverUrl book) && ExportUtils.includeImages options
  then match ExportUtils.fetchBlob h (orEmpty (Book.coverUrl book)) with
       | inr _ => []
       | inl e => [ExportUtils.ConsoleWarn "Could not include cover image:" e]
       end
  else [].

(** The archive a run has offered, when it has offered one file and that
    file is an archive. *)
Definition downloadedArchive (r : ExportUtils.Run unit) : option ExportUtils.Zip :=
  match downloads (ExportUtils.events r) with
  | [(ExportUtils.ZipBlob zip, _)] => Some zip
  | _ => None
  end.

(** A host in which nothing fails: every fetch, archive generation, save
    and print window succeeds. *)
Definition quietHost : ExportUtils.Host :=
  ExportUtils.mkHost
    (fun n => if Nat.even n then 3%N else 12%N)
    (fun _ => inr "JFIF")
    (fun _ => None)
    (fun _ _ => None)
    true
    (fun _ => None).

(** Two archives agree but for the stylesheet: the same entries in the
    same order, with the same content except under
    [OEBPS/stylesheet.css]. *)
Definition sameButStylesheet (z1 z2 : ExportUtils.Zip) : Prop :=
  Forall2 (fun e1 e2 =>
             fst e1 = fst e2
             /\ (fst e1 <> "OEBPS/stylesheet.css" -> snd e1 = snd e2)) z1 z2.

(** The book of the end-to-end scenario, with a cover URL, and options
    for the EPUB export. *)
Definition scenarioBook : Book.t :=
  Book.mk "b1" "Test Title!" "A. Author" "Fiction" None None
    (Some [BookChapter.mk "Ch 1"
             ("Para one." ++ String newline (String newline "Para two.")) 0 4])
    (Some "http://covers/1.jpg") None None None None (Some 0%Z) "draft"
    (Some 1000%Z) (Some 1000%Z).

Definition epubOptions (includeImages : bool) : ExportUtils.ExportOptions :=
  ExportUtils.mkOptions ExportUtils.epub includeImages None None None None None.

(** Sample data: a book with one chapter and one cover, next to a chapter
    of another book; and a store holding a chapter whose book was never
    created. *)
Definition sampleBook : InsertBook.t :=
  InsertBook.mk "Test Title!" "A. Author" "Fiction"
    None None None None None None None None None None.

Definition sampleState : MemStorage.t :=
  snd (MemStorage.createChapter
         (InsertChapter.mk "b2" "Elsewhere" "Other text." 0 None None) "c2" 1003
    (snd (MemStorage.createCover
         (InsertCover.mk "b1" "http://covers/1.jpg" "modern" "blue" None) "v1" 1002
    (snd (MemStorage.createChapter
         (InsertChapter.mk "b1" "Ch 1" "Para one." 0 (Some 2%Z) None) "c1" 1001
    (snd (MemStorage.createBook sampleBook "b1" 1000 MemStorage.new))))))).

Definition orphanState : MemStorage.t :=
  snd (MemStorage.createChapter
         (InsertChapter.mk "b1" "Ch 1" "Para one." 0 None None) "c1" 1000
         MemStorage.new).

End Spec.

(* ================================================================== *)
(** * Part II: properties *)
(* ================================================================== *)

Import Js.

(** ** Strings *)

Lemma append_assoc (a b c : string) : (a ++ b) ++ c = a ++ (b ++ c).
Proof.
  induction a as [|x a IH]; simpl; [reflexivity | now rewrite IH].
Qed.

Lemma append_empty_r (a : string) : a ++ "" = a.
Proof.
  induction a as [|x a IH]; simpl; [reflexivity | now rewrite IH].
Qed.

Lemma length_append (a b : string) :
  String.length (a ++ b) = String.length a + String.length b.
Proof.
  induction a as [|x a IH]; simpl; [reflexivity | now rewrite IH].
Qed.

Lemma replaceEach_append p r (a b : string) :
  replaceEach p r (a ++ b) = replaceEach p r a ++ replaceEach p r b.
Proof.
  induction a as [|x a IH]; simpl; [reflexivity|].
  destruct (p x); rewrite IH; [now rewrite append_assoc | reflexivity].
Qed.

(** Case analysis on a code unit, all 256 of them. *)
Ltac each_char c := destruct c as [[] [] [] [] [] [] [] []].

(** ** [escapeXML] *)

(** The five replacements in sequence never touch the text an earlier one
    produced: together they act on each code unit on its own. *)
Lemma escapeXML_cons (c : ascii) (s : string) :
  ExportUtils.escapeXML (String c s) = Spec.escapeChar c ++ ExportUtils.escapeXML s.
Proof.
  unfold ExportUtils.escapeXML.
  each_char c; reflexivity.
Qed.

Lemma escapeXML_empty : ExportUtils.escapeXML "" = "".
Proof. reflexivity. Qed.

Lemma escapeXML_append (a b : string) :
  ExportUtils.escapeXML (a ++ b) = ExportUtils.escapeXML a ++ ExportUtils.escapeXML b.
Proof.
  unfold ExportUtils.escapeXML. now rewrite !replaceEach_append.
Qed.

Lemma unescape_escapeChar (c : ascii) (rest : string) :
  Spec.unescape_from 0 (Spec.escapeChar c ++ rest) = String c (Spec.unescape_from 0 rest).
Proof.
  each_char c; reflexivity.
Qed.

(** C8.  Escaping and then decoding the five predefined entity references
    gives back the original string, whatever it contains. *)
Theorem escapeXML_roundtrip (s : string) :
  Spec.unescapeXML (ExportUtils.escapeXML s) = s.
Proof.
  unfold Spec.unescapeXML.
  induction s as [|c s IH]; [reflexivity|].
  rewrite escapeXML_cons, unescape_escapeChar. now rewrite IH.
Qed.

(** ** [sanitizeFilename] *)

(** C6, as the code has it.  Every non-alphanumeric code unit becomes one
    underscore of its own and the rest is lower-cased, so the length is
    kept: a run of k such code units gives k underscores. *)
Theorem sanitizeFilename_each_char (s : string) :
  ExportUtils.sanitizeFilename s = Spec.mapString Spec.sanitizeChar s
  /\ String.length (ExportUtils.sanitizeFilename s) = String.length s.
Proof.
  unfold ExportUtils.sanitizeFilename.
  induction s as [|c s [IH1 IH2]]; [split; reflexivity|].
  simpl. unfold Spec.sanitizeChar at 1.
  destruct (isAlnum c); simpl; rewrite IH1; split; try reflexivity;
    now rewrite <- IH2, IH1.
Qed.

(** C6 as stated fails: two adjacent non-alphanumeric code units give two
    underscores, not one. *)
Lemma sanitizeFilename_does_not_collapse_runs :
  ~ (forall s, ExportUtils.sanitizeFilename s = Spec.sanitizeRuns s).
Proof.
  intros H. specialize (H "a!!b"). vm_compute in H. discriminate H.
Qed.

Example sanitizeFilename_run : ExportUtils.sanitizeFilename "a!!b" = "a__b".
Proof. reflexivity. Qed.

Example sanitizeFilename_test_title :
  ExportUtils.sanitizeFilename "Test Title!" = "test_title_".
Proof. reflexivity. Qed.

(** ** [split] and [formatChapterContent] *)

Lemma split_from_no_separator (sep cur s : string) :
  includes sep s = false -> split_from sep 0 cur s = [cur ++ s].
Proof.
  revert cur. induction s as [|c s IH]; intros cur H.
  - simpl. now rewrite append_empty_r.
  - simpl in H. apply orb_false_iff in H as [H1 H2].
    cbn [split_from]. rewrite H1, (IH _ H2), append_assoc. reflexivity.
Qed.

Lemma split_no_separator (sep s : string) :
  includes sep s = false -> split sep s = [s].
Proof.
  intros H. unfold split. now rewrite split_from_no_separator.
Qed.

(** C7, as the code has it.  Content without a blank-line separator gives
    one paragraph, whose body is the escaped text after [trim] has removed
    the white space at both ends. *)
Theorem formatChapterContent_single_paragraph (s : string) :
  includes (String newline (String newline "")) s = false ->
  ExportUtils.formatChapterContent s
  = "<p>" ++ ExportUtils.escapeXML (trim s) ++ "</p>".
Proof.
  intros H. unfold ExportUtils.formatChapterContent.
  now rewrite (split_no_separator _ _ H).
Qed.

Lemma formatChapterContent_single_paragraph_witness :
  includes (String newline (String newline "")) " Para one." = false
  /\ ExportUtils.formatChapterContent " Para one." = "<p>Para one.</p>".
Proof.
  split; [reflexivity|].
  exact (formatChapterContent_single_paragraph " Para one." eq_refl).
Defined.

(** C7 as stated fails: white space at the ends of the text is not in the
    paragraph. *)
Lemma formatChapterContent_trims :
  ~ (forall s, includes (String newline (String newline "")) s = false ->
               ExportUtils.formatChapterContent s
               = "<p>" ++ ExportUtils.escapeXML s ++ "</p>").
Proof.
  intros H. specialize (H " a" eq_refl). vm_compute in H. discriminate H.
Qed.

(** ** [validateFileType] *)

Lemma pop_cons (x : string) (l : list string) (e : string) :
  pop l = Some e -> pop (x :: l) = Some e.
Proof.
  destruct l; [discriminate | intros H; exact H].
Qed.

Lemma pop_split_last_dot (cur a e : string) :
  includes "." e = false ->
  pop (split_from "." 0 cur (a ++ String "." e)) = Some e.
Proof.
  intros He. revert cur. induction a as [|c a IH]; intros cur.
  - cbn. now rewrite split_from_no_separator.
  - cbn [append split_from startsWith String.length Nat.sub].
    destruct (Ascii.eqb "." c); cbn [andb].
    + apply pop_cons, IH.
    + apply IH.
Qed.

Lemma toLowerCase_append (a b : string) :
  toLowerCase (a ++ b) = toLowerCase a ++ toLowerCase b.
Proof.
  induction a as [|x a IH]; simpl; [reflexivity | now rewrite IH].
Qed.

Lemma toLowerCaseChar_dot (c : ascii) :
  Ascii.eqb "." (toLowerCaseChar c) = Ascii.eqb "." c.
Proof. each_char c; reflexivity. Qed.

Lemma includes_dot_toLowerCase (s : string) :
  includes "." (toLowerCase s) = includes "." s.
Proof.
  induction s as [|c s IH]; [reflexivity|].
  cbn [includes toLowerCase startsWith]. now rewrite toLowerCaseChar_dot, IH.
Qed.

(** With a dot in the name, the text after the last dot decides. *)
Lemma validateFileType_dotted (base ext : string) :
  includes "." ext = false ->
  DocumentUtils.validateFileType (base ++ String "." ext)
  = arrayIncludes DocumentUtils.allowedExtensions (toLowerCase ext).
Proof.
  intros H. unfold DocumentUtils.validateFileType, split.
  rewrite toLowerCase_append. cbn [toLowerCase].
  change (toLowerCaseChar ".") with "."%char.
  rewrite pop_split_last_dot; [reflexivity|].
  now rewrite includes_dot_toLowerCase.
Qed.

(** Without a dot, the whole name is taken for the extension. *)
Lemma validateFileType_dotless (name : string) :
  includes "." name = false ->
  DocumentUtils.validateFileType name
  = arrayIncludes DocumentUtils.allowedExtensions (toLowerCase name).
Proof.
  intros H. unfold DocumentUtils.validateFileType.
  rewrite split_no_separator; [reflexivity|].
  now rewrite includes_dot_toLowerCase.
Qed.

(** C5 at the failing input: a name that has no extension and is accepted. *)
Theorem validateFileType_accepts_bare_pdf :
  Spec.hasExtension "pdf" = false /\ DocumentUtils.validateFileType "pdf" = true.
Proof. split; reflexivity. Qed.

Example validateFileType_upper : DocumentUtils.validateFileType "Draft.PDF" = true.
Proof. reflexivity. Qed.

Example validateFileType_exe : DocumentUtils.validateFileType "setup.exe" = false.
Proof. reflexivity. Qed.

Example validateFileType_trailing_dot : DocumentUtils.validateFileType "notes." = false.
Proof. reflexivity. Qed.

(** ** The storage *)

Section JsMapFacts.
Context {V : Type}.
Implicit Types (m : JsMap.t V) (k : string) (v : V).

Lemma get_set_same k v m : JsMap.get k (JsMap.set k v m) = Some v.
Proof.
  induction m as [|[k' v'] m IH]; simpl.
  - now rewrite String.eqb_refl.
  - destruct (String.eqb k' k) eqn:E; simpl; rewrite E; [reflexivity | exact IH].
Qed.

Lemma in_values_set k v m : In v (JsMap.values (JsMap.set k v m)).
Proof.
  induction m as [|[k' v'] m IH]; simpl.
  - now left.
  - destruct (String.eqb k' k); simpl; [now left | now right].
Qed.

Lemma keys_set k v m :
  JsMap.keys (JsMap.set k v m)
  = if JsMap.has k m then JsMap.keys m else (JsMap.keys m ++ [k])%list.
Proof.
  unfold JsMap.has.
  induction m as [|[k' v'] m IH]; simpl; [reflexivity|].
  destruct (String.eqb k' k) eqn:E; simpl; [reflexivity|].
  rewrite IH. now destruct (JsMap.get k m).
Qed.

Lemma get_none_not_in_keys k m : JsMap.get k m = None -> ~ In k (JsMap.keys m).
Proof.
  induction m as [|[k' v'] m IH]; simpl; [tauto|].
  destruct (String.eqb_spec k' k) as [->|N]; [discriminate|].
  intros H [E|I]; [contradiction | exact (IH H I)].
Qed.

Lemma in_set_inv k v m e :
  In e (JsMap.set k v m) -> e = (k, v) \/ In e m.
Proof.
  induction m as [|[k' v'] m IH]; simpl.
  - intros [<-|[]]. now left.
  - destruct (String.eqb_spec k' k) as [->|N]; simpl.
    + intros [<-|I]; [now left | now right; right].
    + intros [<-|I]; [now right; left|].
      destruct (IH I); [now left | now right; right].
Qed.

Lemma keyed_empty (idOf : V -> string) : Spec.keyed idOf JsMap.empty.
Proof. split; constructor. Qed.

Lemma keyed_set (idOf : V -> string) k v m :
  idOf v = k -> Spec.keyed idOf m -> Spec.keyed idOf (JsMap.set k v m).
Proof.
  intros Hid [Hnd Hall]. split.
  - rewrite keys_set. unfold JsMap.has.
    destruct (JsMap.get k m) eqn:G; [exact Hnd|].
    apply NoDup_app; [exact Hnd | repeat constructor; intros [] | ].
    intros x Hx [<-|[]]. exact (get_none_not_in_keys _ _ G Hx).
  - apply Forall_forall. intros e He.
    destruct (in_set_inv _ _ _ _ He) as [->|I]; [exact Hid|].
    rewrite Forall_forall in Hall. now apply Hall.
Qed.

Lemma keyed_filter (idOf : V -> string) (p : string * V -> bool) m :
  Spec.keyed idOf m -> Spec.keyed idOf (filter p m).
Proof.
  intros [Hnd Hall]. split.
  - clear Hall. unfold JsMap.keys in *.
    induction m as [|e m IH]; simpl; [constructor|].
    inversion Hnd as [|? ? Hn Hnd']; subst.
    destruct (p e); simpl; [|now apply IH].
    constructor; [|now apply IH].
    intros I. apply Hn. apply in_map_iff in I as [e' [E I]].
    apply filter_In in I as [I _]. apply in_map_iff. now exists e'.
  - apply Forall_forall. intros e He. apply filter_In in He as [He _].
    rewrite Forall_forall in Hall. now apply Hall.
Qed.

Lemma keyed_remove (idOf : V -> string) k m :
  Spec.keyed idOf m -> Spec.keyed idOf (JsMap.remove k m).
Proof. apply keyed_filter. Qed.

(** Two entries of a well-keyed map with the same key are one entry. *)
Lemma keyed_entry_unique (idOf : V -> string) m e1 e2 :
  NoDup (JsMap.keys m) -> In e1 m -> In e2 m -> fst e1 = fst e2 -> e1 = e2.
Proof.
  induction m as [|e m IH]; simpl; [tauto|].
  intros Hnd I1 I2 E. inversion Hnd as [|? ? Hn Hnd']; subst.
  destruct I1 as [->|I1], I2 as [->|I2]; [reflexivity| | |now apply IH].
  - exfalso. apply Hn. rewrite E. now apply in_map.
  - exfalso. apply Hn. rewrite <- E. now apply in_map.
Qed.

Lemma remove_absent k m : JsMap.has k m = false -> JsMap.remove k m = m.
Proof.
  unfold JsMap.has, JsMap.remove.
  induction m as [|[k' v'] m IH]; simpl; [reflexivity|].
  destruct (String.eqb k' k) eqn:E; simpl; [discriminate|].
  intros H. now rewrite IH.
Qed.

Lemma filter_filter (p r : string * V -> bool) m :
  filter p (filter r m) = filter (fun e => r e && p e) m.
Proof.
  induction m as [|e m IH]; simpl; [reflexivity|].
  destruct (r e); simpl; [destruct (p e)|]; now rewrite IH.
Qed.

(** Deleting the ids of a list one after the other removes the entries
    whose key is among them, and keeps the others in place. *)
Lemma deleteEach_filter (idOf : V -> string) (l : list V) m :
  MemStorage.deleteEach idOf l m
  = filter (fun e => negb (existsb (String.eqb (fst e)) (map idOf l))) m.
Proof.
  unfold MemStorage.deleteEach. revert m.
  induction l as [|x l IH]; intros m; simpl.
  - induction m as [|e m IHm]; simpl; [reflexivity | now rewrite <- IHm].
  - rewrite IH. unfold JsMap.remove. rewrite filter_filter.
    apply filter_ext. intros e. now rewrite negb_orb.
Qed.

(** On a well-keyed map, deleting the ids of the values selected by [p]
    removes exactly the entries whose value [p] selects. *)
Lemma deleteEach_selected (idOf : V -> string) (p : V -> bool) m :
  Spec.keyed idOf m ->
  MemStorage.deleteEach idOf (filter p (JsMap.values m)) m
  = filter (fun e => negb (p (snd e))) m.
Proof.
  intros [Hnd Hall]. rewrite deleteEach_filter.
  apply filter_ext_in. intros e He. f_equal.
  rewrite Forall_forall in Hall.
  destruct (p (snd e)) eqn:P.
  - apply existsb_exists. exists (idOf (snd e)). split.
    + apply in_map, filter_In. split; [now apply in_map | exact P].
    + rewrite (Hall e He). apply String.eqb_refl.
  - destruct (existsb _ _) eqn:X; [|reflexivity].
    apply existsb_exists in X as [k [Ik Ek]].
    apply String.eqb_eq in Ek. subst k.
    apply in_map_iff in Ik as [v [Ev Iv]].
    apply filter_In in Iv as [Iv Pv].
    apply in_map_iff in Iv as [e' [<- Ie']].
    assert (e = e') as ->.
    { apply (keyed_entry_unique idOf m); auto. rewrite <- Ev. now apply Hall. }
    congruence.
Qed.

Lemma filter_none (p : string * V -> bool) m :
  (forall e, In e m -> p e = true) -> filter p m = m.
Proof.
  induction m as [|e m IH]; simpl; intros H; [reflexivity|].
  rewrite (H e (or_introl eq_refl)). f_equal. apply IH. auto.
Qed.

Lemma filter_same_inv (p : string * V -> bool) m :
  filter p m = m -> forall e, In e m -> p e = true.
Proof.
  intros E e He. rewrite <- E in He. now apply filter_In in He.
Qed.

End JsMapFacts.

Lemma in_insertBy {A} (le : A -> A -> bool) (x y : A) (l : list A) :
  In y (MemStorage.insertBy le x l) <-> y = x \/ In y l.
Proof.
  induction l as [|z l IH]; simpl; [intuition congruence|].
  destruct (le x z); simpl; [intuition congruence|].
  rewrite IH. intuition congruence.
Qed.

(** Sorting keeps the elements. *)
Lemma in_sortBy {A} (le : A -> A -> bool) (y : A) (l : list A) :
  In y (MemStorage.sortBy le l) <-> In y l.
Proof.
  unfold MemStorage.sortBy.
  induction l as [|x l IH]; simpl; [tauto|].
  rewrite in_insertBy, IH. intuition congruence.
Qed.

Lemma get_some_in {V} (k : string) (v : V) (m : JsMap.t V) :
  JsMap.get k m = Some v -> In (k, v) m.
Proof.
  induction m as [|[k' v'] m IH]; simpl; [discriminate|].
  destruct (String.eqb_spec k' k) as [->|N].
  - intros [= ->]. now left.
  - intros H. right. now apply IH.
Qed.

Lemma keyed_get {V} (idOf : V -> string) (k : string) (v : V) (m : JsMap.t V) :
  Spec.keyed idOf m -> JsMap.get k m = Some v -> idOf v = k.
Proof.
  intros [_ Hall] G. rewrite Forall_forall in Hall.
  exact (Hall _ (get_some_in _ _ _ G)).
Qed.

Lemma keyed_deleteEach {V} (idOf : V -> string) (l : list V) (m : JsMap.t V) :
  Spec.keyed idOf m -> Spec.keyed idOf (MemStorage.deleteEach idOf l m).
Proof.
  intros H. rewrite deleteEach_filter. now apply keyed_filter.
Qed.

(** *** The invariant holds in every state the interface produces *)

Lemma wellFormed_new : Spec.wellFormed MemStorage.new.
Proof. split; apply keyed_empty. Qed.

Ltac wf_step :=
  match goal with
  | H : Spec.wellFormed _ |- _ => destruct H as [Hb Hc Hv Hu]
  end;
  split; simpl; auto using keyed_remove, keyed_deleteEach;
  try (apply keyed_set; [reflexivity | assumption]).

Lemma wellFormed_createBook st b id now :
  Spec.wellFormed st -> Spec.wellFormed (snd (MemStorage.createBook b id now st)).
Proof. intros H. wf_step. Qed.

Lemma wellFormed_createChapter st c id now :
  Spec.wellFormed st -> Spec.wellFormed (snd (MemStorage.createChapter c id now st)).
Proof. intros H. wf_step. Qed.

Lemma wellFormed_createCover st c id now :
  Spec.wellFormed st -> Spec.wellFormed (snd (MemStorage.createCover c id now st)).
Proof. intros H. wf_step. Qed.

Lemma wellFormed_createUser st u id :
  Spec.wellFormed st -> Spec.wellFormed (snd (MemStorage.createUser u id st)).
Proof. intros H. wf_step. Qed.

Lemma wellFormed_deleteBook st id :
  Spec.wellFormed st -> Spec.wellFormed (snd (MemStorage.deleteBook id st)).
Proof. intros H. unfold MemStorage.deleteBook, JsMap.delete. wf_step. Qed.

Lemma wellFormed_deleteChapter st id :
  Spec.wellFormed st -> Spec.wellFormed (snd (MemStorage.deleteChapter id st)).
Proof. intros H. unfold MemStorage.deleteChapter, JsMap.delete. wf_step. Qed.

Lemma wellFormed_deleteCover st id :
  Spec.wellFormed st -> Spec.wellFormed (snd (MemStorage.deleteCover id st)).
Proof. intros H. unfold MemStorage.deleteCover, JsMap.delete. wf_step. Qed.

Lemma wellFormed_updateBook st id b now :
  Spec.wellFormed st -> Spec.wellFormed (snd (MemStorage.updateBook id b now st)).
Proof.
  intros H. unfold MemStorage.updateBook.
  destruct (JsMap.get id (MemStorage.books st)) eqn:G; [|exact H].
  pose proof (keyed_get _ _ _ _ (Spec.wf_books _ H) G).
  destruct H as [Hb Hc Hv Hu]. split; simpl; auto. now apply keyed_set.
Qed.

Lemma wellFormed_updateChapter st id c now :
  Spec.wellFormed st -> Spec.wellFormed (snd (MemStorage.updateChapter id c now st)).
Proof.
  intros H. unfold MemStorage.updateChapter.
  destruct (JsMap.get id (MemStorage.chapters st)) eqn:G; [|exact H].
  pose proof (keyed_get _ _ _ _ (Spec.wf_chapters _ H) G).
  destruct H as [Hb Hc Hv Hu]. split; simpl; auto. now apply keyed_set.
Qed.

Lemma wellFormed_updateCover st id c :
  Spec.wellFormed st -> Spec.wellFormed (snd (MemStorage.updateCover id c st)).
Proof.
  intros H. unfold MemStorage.updateCover.
  destruct (JsMap.get id (MemStorage.covers st)) eqn:G; [|exact H].
  pose proof (keyed_get _ _ _ _ (Spec.wf_covers _ H) G).
  destruct H as [Hb Hc Hv Hu]. split; simpl; auto. now apply keyed_set.
Qed.

Lemma wellFormed_updateUser st id u :
  Spec.wellFormed st -> Spec.wellFormed (snd (MemStorage.updateUser id u st)).
Proof.
  intros H. unfold MemStorage.updateUser.
  destruct (JsMap.get id (MemStorage.users st)) eqn:G; [|exact H].
  pose proof (keyed_get _ _ _ _ (Spec.wf_users _ H) G).
  destruct H as [Hb Hc Hv Hu]. split; simpl; auto. now apply keyed_set.
Qed.

Lemma reachable_wellFormed st : Spec.reachable st -> Spec.wellFormed st.
Proof.
  induction 1;
    auto using wellFormed_new, wellFormed_createBook, wellFormed_updateBook,
      wellFormed_deleteBook, wellFormed_createChapter, wellFormed_updateChapter,
      wellFormed_deleteChapter, wellFormed_createCover, wellFormed_updateCover,
      wellFormed_deleteCover, wellFormed_createUser, wellFormed_updateUser.
Qed.

(** *** [deleteBook] *)

Lemma in_values_iff {V} (v : V) (m : JsMap.t V) :
  In v (JsMap.values m) <-> exists k, In (k, v) m.
Proof.
  unfold JsMap.values. rewrite in_map_iff. split.
  - intros [[k v'] [E I]]. simpl in E. subst. now exists k.
  - intros [k I]. now exists (k, v).
Qed.

Lemma filter_bookId_unchanged {V} (bookIdOf : V -> string) (id : string) (m : JsMap.t V) :
  filter (fun e => negb (String.eqb (bookIdOf (snd e)) id)) m = m
  <-> (forall v, In v (JsMap.values m) -> bookIdOf v <> id).
Proof.
  split.
  - intros E v Iv. apply in_values_iff in Iv as [k I].
    pose proof (filter_same_inv _ _ E _ I) as P. simpl in P.
    apply negb_true_iff, String.eqb_neq in P. exact P.
  - intros H. apply filter_none. intros [k v] I. simpl.
    apply negb_true_iff, String.eqb_neq, H, in_values_iff. now exists k.
Qed.

(** C2, as the code has it.  In a well-formed store [deleteBook id]
    removes exactly the chapters and the covers whose [bookId] is [id]
    (the others stay, in place), removes the book under [id], leaves the
    users alone and answers whether there was such a book.  When there was
    none, the answer is [false] and books and users are unchanged; the
    whole state is unchanged exactly when, in addition, no chapter and no
    cover refers to [id]. *)
Theorem deleteBook_cascade (st : MemStorage.t) (id : string) :
  Spec.wellFormed st ->
  let deleted := fst (MemStorage.deleteBook id st) in
  let st' := snd (MemStorage.deleteBook id st) in
  MemStorage.chapters st'
  = filter (fun e => negb (String.eqb (Chapter.bookId (snd e)) id)) (MemStorage.chapters st)
  /\ MemStorage.covers st'
     = filter (fun e => negb (String.eqb (Cover.bookId (snd e)) id)) (MemStorage.covers st)
  /\ MemStorage.books st' = JsMap.remove id (MemStorage.books st)
  /\ MemStorage.getBook id st' = None
  /\ MemStorage.users st' = MemStorage.users st
  /\ deleted = JsMap.has id (MemStorage.books st)
  /\ (MemStorage.getBook id st = None ->
      deleted = false
      /\ MemStorage.books st' = MemStorage.books st
      /\ (st' = st <->
          (forall ch, In ch (JsMap.values (MemStorage.chapters st)) -> Chapter.bookId ch <> id)
          /\ (forall cv, In cv (JsMap.values (MemStorage.covers st)) -> Cover.bookId cv <> id))).
Proof.
  intros [Hb Hc Hv Hu]. cbv zeta.
  unfold MemStorage.deleteBook, JsMap.delete. cbn [fst snd MemStorage.chapters
    MemStorage.covers MemStorage.books MemStorage.users].
  rewrite (deleteEach_selected Chapter.id
             (fun chapter => String.eqb (Chapter.bookId chapter) id) _ Hc).
  rewrite (deleteEach_selected Cover.id
             (fun cover => String.eqb (Cover.bookId cover) id) _ Hv).
  repeat (split; [reflexivity|]).
  split.
  { unfold MemStorage.getBook. cbn [MemStorage.books]. unfold JsMap.remove.
    induction (MemStorage.books st) as [|[k v] m IH]; [reflexivity|].
    cbn [filter fst]. destruct (String.eqb k id) eqn:E; cbn [negb]; [apply IH|].
    - now inversion Hb as [Hnd Hall]; inversion Hnd; inversion Hall; subst; split.
    - cbn [JsMap.get]. rewrite E. apply IH.
      now inversion Hb as [Hnd Hall]; inversion Hnd; inversion Hall; subst; split. }
  repeat (split; [reflexivity|]).
  unfold MemStorage.getBook. intros G.
  assert (Hhas : JsMap.has id (MemStorage.books st) = false)
    by (unfold JsMap.has; now rewrite G).
  rewrite Hhas, (remove_absent _ _ Hhas).
  repeat (split; [reflexivity|]).
  rewrite <- !filter_bookId_unchanged. split.
  - intros E. split.
    + exact (f_equal MemStorage.chapters E).
    + exact (f_equal MemStorage.covers E).
  - intros [E1 E2]. rewrite E1, E2. now destruct st.
Qed.

Lemma deleteBook_cascade_witness :
  Spec.wellFormed Spec.sampleState
  /\ MemStorage.chapters (snd (MemStorage.deleteBook "b1" Spec.sampleState))
     = filter (fun e => negb (String.eqb (Chapter.bookId (snd e)) "b1"))
              (MemStorage.chapters Spec.sampleState)
  /\ fst (MemStorage.deleteBook "b1" Spec.sampleState) = true.
Proof.
  assert (W : Spec.wellFormed Spec.sampleState)
    by (apply reachable_wellFormed; repeat constructor).
  split; [exact W|].
  destruct (deleteBook_cascade Spec.sampleState "b1" W) as (Hc & _ & _ & _ & _ & Hd & _).
  split; [exact Hc | exact Hd].
Defined.

Example deleteBook_sample :
  JsMap.keys (MemStorage.chapters (snd (MemStorage.deleteBook "b1" Spec.sampleState))) = ["c2"]
  /\ JsMap.keys (MemStorage.covers (snd (MemStorage.deleteBook "b1" Spec.sampleState))) = []
  /\ JsMap.keys (MemStorage.books (snd (MemStorage.deleteBook "b1" Spec.sampleState))) = [].
Proof. repeat split. Qed.

(** C2 as stated fails: with no book under [id] the answer is [false], yet
    a chapter that names [id] as its book is removed all the same. *)
Lemma deleteBook_missing_book_still_cascades :
  ~ (forall st id,
        Spec.reachable st ->
        MemStorage.getBook id st = None ->
        MemStorage.deleteBook id st = (false, st)).
Proof.
  intros H.
  assert (R : Spec.reachable Spec.orphanState) by repeat constructor.
  specialize (H Spec.orphanState "b1" R eq_refl).
  apply (f_equal (fun r => List.length (MemStorage.chapters (snd r)))) in H.
  vm_compute in H. discriminate H.
Qed.

(** *** [createChapter] *)

Lemma createChapter_stores_and_lists
    (st : MemStorage.t) (c : InsertChapter.t) (id : string) (now : Z) :
  let chapter := fst (MemStorage.createChapter c id now st) in
  let st' := snd (MemStorage.createChapter c id now st) in
  Chapter.bookId chapter = InsertChapter.bookId c
  /\ JsMap.get id (MemStorage.chapters st') = Some chapter
  /\ In chapter (MemStorage.getChaptersByBookId (InsertChapter.bookId c) st')
  /\ MemStorage.books st' = MemStorage.books st
  /\ MemStorage.getBook (InsertChapter.bookId c) st'
     = MemStorage.getBook (InsertChapter.bookId c) st.
Proof.
  cbv zeta. unfold MemStorage.createChapter, MemStorage.getChaptersByBookId,
    MemStorage.getBook. cbn [fst snd MemStorage.chapters MemStorage.books Chapter.bookId].
  split; [reflexivity|]. split; [apply get_set_same|].
  split; [|split; reflexivity].
  apply in_sortBy, filter_In. split; [apply in_values_set|].
  cbn [Chapter.bookId]. apply String.eqb_refl.
Qed.

(** C9.  [createChapter] never looks at the books: in every state the new
    chapter is stored under its id and is listed by [getChaptersByBookId]
    for the [bookId] it names, and the book under that [bookId] is what it
    was before, present or not. *)
Theorem createChapter_needs_no_book
    (st : MemStorage.t) (c : InsertChapter.t) (id : string) (now : Z) :
  let chapter := fst (MemStorage.createChapter c id now st) in
  let st' := snd (MemStorage.createChapter c id now st) in
  Chapter.bookId chapter = InsertChapter.bookId c
  /\ JsMap.get id (MemStorage.chapters st') = Some chapter
  /\ In chapter (MemStorage.getChaptersByBookId (InsertChapter.bookId c) st')
  /\ MemStorage.books st' = MemStorage.books st
  /\ MemStorage.getBook (InsertChapter.bookId c) st'
     = MemStorage.getBook (InsertChapter.bookId c) st.
Proof. exact (createChapter_stores_and_lists st c id now). Qed.

(** The chapter of a book that does not exist. *)
Corollary createChapter_orphan
    (st : MemStorage.t) (c : InsertChapter.t) (id : string) (now : Z) :
  MemStorage.getBook (InsertChapter.bookId c) st = None ->
  let st' := snd (MemStorage.createChapter c id now st) in
  MemStorage.getBook (InsertChapter.bookId c) st' = None
  /\ In (fst (MemStorage.createChapter c id now st))
        (MemStorage.getChaptersByBookId (InsertChapter.bookId c) st').
Proof.
  intros G.
  destruct (createChapter_stores_and_lists st c id now) as (_ & _ & I & _ & B).
  split; [now rewrite B | exact I].
Qed.

Example createChapter_in_new_store :
  MemStorage.getBooks Spec.orphanState = []
  /\ map Chapter.title (MemStorage.getChaptersByBookId "b1" Spec.orphanState) = ["Ch 1"].
Proof. split; reflexivity. Qed.

(** ** [calculateWordCount] *)

Lemma nonEmpty_snoc (cur : string) (c : ascii) : Spec.nonEmpty (cur ++ String c "") = true.
Proof. unfold Spec.nonEmpty. rewrite length_append. simpl. apply Nat.ltb_lt. lia. Qed.

(** The non-empty pieces of a split are the words: one for the piece under
    way, if any, and one for each word that starts later. *)
Lemma splitWs_from_words (s : string) :
  (forall inRun,
      List.length (filter Spec.nonEmpty (splitWs_from inRun "" s)) = Spec.countWords false s)
  /\ (forall cur, Spec.nonEmpty cur = true ->
      List.length (filter Spec.nonEmpty (splitWs_from false cur s))
      = 1 + Spec.countWords true s).
Proof.
  induction s as [|c s [IHa IHb]]; split.
  - reflexivity.
  - intros cur H. simpl. now rewrite H.
  - intros inRun. cbn [splitWs_from Spec.countWords].
    destruct (isWhiteSpace c).
    + destruct inRun; [apply IHa|]. cbn [filter Spec.nonEmpty]. simpl. apply IHa.
    + cbn [append]. now rewrite IHb by apply (nonEmpty_snoc "").
  - intros cur H. cbn [splitWs_from Spec.countWords].
    destruct (isWhiteSpace c).
    + cbn [filter]. rewrite H. cbn [List.length]. now rewrite IHa.
    + now rewrite IHb by apply nonEmpty_snoc.
Qed.

Lemma countWords_trimStart (s : string) :
  Spec.countWords false (trimStart s) = Spec.countWords false s.
Proof.
  induction s as [|c s IH]; [reflexivity|].
  cbn [trimStart Spec.countWords]. destruct (isWhiteSpace c) eqn:E; [exact IH|].
  cbn [Spec.countWords]. now rewrite E.
Qed.

Lemma countWords_trimEnd (s : string) (inWord : bool) :
  Spec.countWords inWord (trimEnd s) = Spec.countWords inWord s.
Proof.
  revert inWord. induction s as [|c s IH]; intros inWord; [reflexivity|].
  cbn [trimEnd]. destruct (trimEnd s) as [|x t] eqn:E.
  - cbn [Spec.countWords]. destruct (isWhiteSpace c) eqn:W.
    + now rewrite <- IH.
    + cbn [Spec.countWords]. rewrite W, <- IH. reflexivity.
  - cbn [Spec.countWords]. destruct (isWhiteSpace c); now rewrite <- IH.
Qed.

Lemma countWords_trim (s : string) :
  Spec.countWords false (trim s) = Spec.countWords false s.
Proof. unfold trim. now rewrite countWords_trimEnd, countWords_trimStart. Qed.

Lemma calculateWordCount_both (text : string) :
  DocumentUtils.calculateWordCount text = Spec.countWords false text
  /\ DocumentProcessor.calculateWordCount text = Spec.countWords false text.
Proof.
  unfold DocumentUtils.calculateWordCount, DocumentProcessor.calculateWordCount, splitWs.
  change (fun word => (0 <? String.length word)%nat) with Spec.nonEmpty.
  now rewrite (proj1 (splitWs_from_words _)), countWords_trim.
Qed.

(** X1.  [calculateWordCount] (the client's and the server's) counts the
    maximal runs of code units that are not white space, wherever the
    white space lies. *)
Theorem calculateWordCount_counts_words (text : string) :
  DocumentUtils.calculateWordCount text = Spec.countWords false text
  /\ DocumentProcessor.calculateWordCount text = Spec.countWords false text.
Proof.
  unfold DocumentUtils.calculateWordCount, DocumentProcessor.calculateWordCount, splitWs.
  change (fun word => (0 <? String.length word)%nat) with Spec.nonEmpty.
  now rewrite (proj1 (splitWs_from_words _)), countWords_trim.
Qed.

Lemma calculateWordCount_eq (text : string) :
  DocumentUtils.calculateWordCount text = Spec.countWords false text.
Proof. apply calculateWordCount_both. Qed.

Lemma countWords_append_space (a b : string) (w : ascii) (inWord : bool) :
  isWhiteSpace w = true ->
  Spec.countWords inWord (a ++ String w b)
  = Spec.countWords inWord a + Spec.countWords false b.
Proof.
  intros W. revert inWord. induction a as [|c a IH]; intros inWord.
  - cbn [append Spec.countWords]. now rewrite W.
  - cbn [append Spec.countWords]. destruct (isWhiteSpace c); rewrite IH; lia.
Qed.

(** X2.  Word counts add up across white space: the count of two texts
    put together with a white-space code unit between them is the sum of
    their counts. *)
Theorem calculateWordCount_additive (a b : string) (w : ascii) :
  isWhiteSpace w = true ->
  DocumentUtils.calculateWordCount (a ++ String w b)
  = DocumentUtils.calculateWordCount a + DocumentUtils.calculateWordCount b.
Proof.
  intros W. rewrite !calculateWordCount_eq. now apply countWords_append_space.
Qed.

Lemma calculateWordCount_additive_witness :
  isWhiteSpace " " = true
  /\ DocumentUtils.calculateWordCount ("Para one." ++ String " " "Para  two.") = 2 + 2.
Proof.
  split; [reflexivity|].
  exact (calculateWordCount_additive "Para one." "Para  two." " " eq_refl).
Defined.

Lemma countWords_zero (s : string) (inWord : bool) :
  Spec.countWords inWord s = 0 ->
  inWord = false -> Spec.allChars isWhiteSpace s = true.
Proof.
  revert inWord. induction s as [|c s IH]; intros inWord H F; [reflexivity|].
  cbn [Spec.countWords Spec.allChars] in *. subst inWord.
  destruct (isWhiteSpace c); [now apply (IH false) | discriminate].
Qed.

Lemma countWords_blank (s : string) (inWord : bool) :
  Spec.allChars isWhiteSpace s = true -> Spec.countWords inWord s = 0.
Proof.
  revert inWord. induction s as [|c s IH]; intros inWord H; [reflexivity|].
  cbn [Spec.countWords Spec.allChars] in *.
  apply andb_true_iff in H as [H1 H2]. rewrite H1. now apply IH.
Qed.

(** X3.  The count is zero exactly for the empty text and for text made of
    white space only. *)
Theorem calculateWordCount_zero_iff (text : string) :
  DocumentUtils.calculateWordCount text = 0 <-> Spec.allChars isWhiteSpace text = true.
Proof.
  rewrite calculateWordCount_eq. split.
  - intros H. now apply (countWords_zero _ false).
  - apply countWords_blank.
Qed.

(** ** More on the storage *)

Section JsMapMore.
Context {V : Type}.
Implicit Types (m : JsMap.t V) (k : string) (v : V).

Lemma get_set_other k k' v m : k' <> k -> JsMap.get k' (JsMap.set k v m) = JsMap.get k' m.
Proof.
  intros N. induction m as [|[k0 v0] m IH]; simpl.
  - destruct (String.eqb_spec k k'); [congruence | reflexivity].
  - destruct (String.eqb_spec k0 k) as [->|N0]; simpl.
    + destruct (String.eqb_spec k k'); [congruence | reflexivity].
    + destruct (String.eqb k0 k'); [reflexivity | exact IH].
Qed.

Lemma get_remove_same k m : JsMap.get k (JsMap.remove k m) = None.
Proof.
  unfold JsMap.remove. induction m as [|[k0 v0] m IH]; simpl; [reflexivity|].
  destruct (String.eqb k0 k) eqn:E; simpl; [exact IH | now rewrite E].
Qed.

Lemma get_remove_other k k' m : k' <> k -> JsMap.get k' (JsMap.remove k m) = JsMap.get k' m.
Proof.
  intros N. unfold JsMap.remove. induction m as [|[k0 v0] m IH]; simpl; [reflexivity|].
  destruct (String.eqb_spec k0 k) as [->|N0]; simpl.
  - destruct (String.eqb_spec k k'); [congruence | exact IH].
  - destruct (String.eqb k0 k'); [reflexivity | exact IH].
Qed.

Lemma set_fresh k v m : JsMap.get k m = None -> JsMap.set k v m = (m ++ [(k, v)])%list.
Proof.
  induction m as [|[k0 v0] m IH]; simpl; [reflexivity|].
  destruct (String.eqb k0 k); [discriminate|]. intros H. now rewrite IH.
Qed.


End JsMapMore.

(** *** Sorting *)

Section Sorting.
Context {A : Type} (le : A -> A -> bool).
Hypothesis le_total : forall a b, le a b = false -> le b a = true.
Hypothesis le_trans : forall a b c, le a b = true -> le b c = true -> le a c = true.

Lemma sortedBy_insertBy (x : A) (l : list A) :
  Spec.sortedBy le l -> Spec.sortedBy le (MemStorage.insertBy le x l).
Proof.
  induction l as [|y l IH]; simpl; [now split|].
  intros [Hy Hl]. destruct (le x y) eqn:E; simpl.
  - split; [|now split]. intros z [<-|Hz]; [exact E|].
    exact (le_trans _ _ _ E (Hy z Hz)).
  - split; [|now apply IH].
    intros z Hz. apply in_insertBy in Hz as [->|Hz]; [now apply le_total | now apply Hy].
Qed.

Lemma sortedBy_sortBy (l : list A) : Spec.sortedBy le (MemStorage.sortBy le l).
Proof.
  unfold MemStorage.sortBy. induction l as [|x l IH]; simpl; [exact I|].
  now apply sortedBy_insertBy.
Qed.

End Sorting.

Lemma insertBy_permutation {A} (le : A -> A -> bool) (x : A) (l : list A) :
  Permutation (MemStorage.insertBy le x l) (x :: l).
Proof.
  induction l as [|y l IH]; simpl; [reflexivity|].
  destruct (le x y); [reflexivity|].
  rewrite IH. apply perm_swap.
Qed.

Lemma sortBy_permutation {A} (le : A -> A -> bool) (l : list A) :
  Permutation (MemStorage.sortBy le l) l.
Proof.
  unfold MemStorage.sortBy. induction l as [|x l IH]; simpl; [reflexivity|].
  rewrite insertBy_permutation. now constructor.
Qed.

(** Inserting keeps the elements of one rank in their order: the new one
    comes first among its equals. *)
Lemma filter_insertBy_rank {A} (rank : A -> Z) (k : Z) (x : A) (l : list A) :
  filter (fun y => (rank y =? k)%Z) (MemStorage.insertBy (fun a b => (rank a <=? rank b)%Z) x l)
  = filter (fun y => (rank y =? k)%Z) (x :: l).
Proof.
  induction l as [|y l IH]; [reflexivity|].
  cbn [MemStorage.insertBy]. destruct (rank x <=? rank y)%Z eqn:E; [reflexivity|].
  cbn [filter] in *. rewrite IH.
  destruct (rank x =? k)%Z eqn:Ex, (rank y =? k)%Z eqn:Ey; try reflexivity.
  apply Z.eqb_eq in Ex, Ey. apply Z.leb_gt in E. lia.
Qed.

Lemma filter_sortBy_rank {A} (rank : A -> Z) (k : Z) (l : list A) :
  filter (fun y => (rank y =? k)%Z) (MemStorage.sortBy (fun a b => (rank a <=? rank b)%Z) l)
  = filter (fun y => (rank y =? k)%Z) l.
Proof.
  unfold MemStorage.sortBy. induction l as [|x l IH]; [reflexivity|].
  cbn [fold_right]. rewrite filter_insertBy_rank. cbn [filter]. now rewrite IH.
Qed.

(** X4.  [getChaptersByBookId] lists exactly the stored chapters of the book,
    each as often as it is stored, in ascending [order]; chapters of equal
    [order] keep the order in which the map holds them. *)
Theorem getChaptersByBookId_sorted (bookId : string) (st : MemStorage.t) :
  let listed := MemStorage.getChaptersByBookId bookId st in
  Spec.sortedBy (fun a b => (Chapter.order a <=? Chapter.order b)%Z) listed
  /\ Permutation listed
       (filter (fun chapter => String.eqb (Chapter.bookId chapter) bookId)
               (JsMap.values (MemStorage.chapters st)))
  /\ (forall chapter, In chapter listed <->
        In chapter (JsMap.values (MemStorage.chapters st))
        /\ Chapter.bookId chapter = bookId)
  /\ (forall k, filter (fun chapter => (Chapter.order chapter =? k)%Z) listed
        = filter (fun chapter => (Chapter.order chapter =? k)%Z)
            (filter (fun chapter => String.eqb (Chapter.bookId chapter) bookId)
                    (JsMap.values (MemStorage.chapters st)))).
Proof.
  cbv zeta. unfold MemStorage.getChaptersByBookId. repeat split.
  - apply sortedBy_sortBy.
    + intros a b H. apply Z.leb_gt in H. apply Z.leb_le. lia.
    + intros a b c H1 H2. apply Z.leb_le in H1, H2. apply Z.leb_le. lia.
  - apply sortBy_permutation.
  - apply in_sortBy in H. now apply filter_In in H.
  - apply in_sortBy in H. apply filter_In in H as [_ H]. now apply String.eqb_eq.
  - intros [H1 H2]. apply in_sortBy, filter_In. split; [exact H1|].
    now apply String.eqb_eq.
  - intros k. apply (filter_sortBy_rank Chapter.order).
Qed.

(** X5.  [getBooks] lists every stored book once, newest first, and
    [getCoversByBookId] lists exactly the stored covers of the book, each
    as often as it is stored, newest first. *)
Theorem listings_newest_first (bookId : string) (st : MemStorage.t) :
  (Spec.sortedBy
     (fun a b => (MemStorage.getTime (Book.createdAt b) <=? MemStorage.getTime (Book.createdAt a))%Z)
     (MemStorage.getBooks st)
   /\ Permutation (MemStorage.getBooks st) (JsMap.values (MemStorage.books st)))
  /\ (Spec.sortedBy
       (fun a b => (MemStorage.getTime (Cover.createdAt b) <=? MemStorage.getTime (Cover.createdAt a))%Z)
       (MemStorage.getCoversByBookId bookId st)
      /\ Permutation (MemStorage.getCoversByBookId bookId st)
           (filter (fun cover => String.eqb (Cover.bookId cover) bookId)
                   (JsMap.values (MemStorage.covers st)))).
Proof.
  unfold MemStorage.getBooks, MemStorage.getCoversByBookId. repeat split.
  - apply sortedBy_sortBy.
    + intros a b H. apply Z.leb_gt in H. apply Z.leb_le. lia.
    + intros a b c H1 H2. apply Z.leb_le in H1, H2. apply Z.leb_le. lia.
  - apply sortBy_permutation.
  - apply sortedBy_sortBy.
    + intros a b H. apply Z.leb_gt in H. apply Z.leb_le. lia.
    + intros a b c H1 H2. apply Z.leb_le in H1, H2. apply Z.leb_le. lia.
  - apply sortBy_permutation.
Qed.

(** *** Books *)

(** X6.  A created book is found under its id with the defaults filled in
    (status [draft] when none or an empty one is given, progress 0 when
    none is given); what is stored under other ids, and the chapters,
    covers and users, are untouched. *)
Theorem createBook_then_getBook
    (b : InsertBook.t) (id : string) (now : Z) (st : MemStorage.t) :
  let book := fst (MemStorage.createBook b id now st) in
  let st' := snd (MemStorage.createBook b id now st) in
  MemStorage.getBook id st' = Some book
  /\ Book.id book = id
  /\ Book.status book
     = (if Js.truthy (InsertBook.status b) then Js.orEmpty (InsertBook.status b) else "draft")
  /\ Book.progress book
     = Some (match InsertBook.progress b with Some p => p | None => 0%Z end)
  /\ Book.createdAt book = Some now /\ Book.updatedAt book = Some now
  /\ (forall other, other <> id -> MemStorage.getBook other st' = MemStorage.getBook other st)
  /\ MemStorage.chapters st' = MemStorage.chapters st
  /\ MemStorage.covers st' = MemStorage.covers st
  /\ MemStorage.users st' = MemStorage.users st.
Proof.
  cbv zeta. unfold MemStorage.createBook, MemStorage.getBook.
  cbn [fst snd MemStorage.books MemStorage.chapters MemStorage.covers MemStorage.users
       Book.id Book.status Book.progress Book.createdAt Book.updatedAt].
  split; [apply get_set_same|]. repeat (split; [reflexivity|]).
  split; [|repeat split]. intros other N. now apply get_set_other.
Qed.


(** *** Chapters and covers *)

(** X8.  [deleteChapter] answers whether the id was stored and removes that
    entry alone; for an id that is not stored the state is unchanged. *)
Theorem deleteChapter_behaviour (id : string) (st : MemStorage.t) :
  let deleted := fst (MemStorage.deleteChapter id st) in
  let st' := snd (MemStorage.deleteChapter id st) in
  deleted = JsMap.has id (MemStorage.chapters st)
  /\ JsMap.get id (MemStorage.chapters st') = None
  /\ (forall other, other <> id ->
        JsMap.get other (MemStorage.chapters st') = JsMap.get other (MemStorage.chapters st))
  /\ MemStorage.books st' = MemStorage.books st
  /\ MemStorage.covers st' = MemStorage.covers st
  /\ MemStorage.users st' = MemStorage.users st
  /\ (deleted = false -> st' = st).
Proof.
  cbv zeta. unfold MemStorage.deleteChapter, JsMap.delete.
  cbn [fst snd MemStorage.books MemStorage.chapters MemStorage.covers MemStorage.users].
  split; [reflexivity|]. split; [apply get_remove_same|].
  split; [intros other N; now apply get_remove_other|].
  repeat (split; [reflexivity|]).
  intros H. rewrite (remove_absent _ _ H). now destruct st.
Qed.

(** X9.  [createCover] stores the cover under its id with [isSelected] set to
    the text [false] unless a non-empty value is given, and the cover is
    listed for its book; no book needs to exist. *)
Theorem createCover_behaviour
    (c : InsertCover.t) (id : string) (now : Z) (st : MemStorage.t) :
  let cover := fst (MemStorage.createCover c id now st) in
  let st' := snd (MemStorage.createCover c id now st) in
  JsMap.get id (MemStorage.covers st') = Some cover
  /\ Cover.isSelected cover
     = (if Js.truthy (InsertCover.isSelected c)
        then Js.orEmpty (InsertCover.isSelected c) else "false")
  /\ In cover (MemStorage.getCoversByBookId (InsertCover.bookId c) st')
  /\ MemStorage.books st' = MemStorage.books st
  /\ MemStorage.chapters st' = MemStorage.chapters st.
Proof.
  cbv zeta. unfold MemStorage.createCover, MemStorage.getCoversByBookId.
  cbn [fst snd MemStorage.books MemStorage.chapters MemStorage.covers Cover.isSelected].
  split; [apply get_set_same|]. split; [reflexivity|].
  split; [|split; reflexivity].
  apply in_sortBy, filter_In. split; [apply in_values_set|].
  cbn [Cover.bookId]. apply String.eqb_refl.
Qed.

(** *** After [deleteBook] *)

Lemma filter_values {V} (p : V -> bool) (m : JsMap.t V) :
  JsMap.values (filter (fun e => p (snd e)) m) = filter p (JsMap.values m).
Proof.
  unfold JsMap.values. induction m as [|[k v] m IH]; [reflexivity|].
  cbn [filter map snd]. destruct (p v); cbn [map snd]; now rewrite IH.
Qed.

Lemma filter_filter_list {A} (p r : A -> bool) (l : list A) :
  filter p (filter r l) = filter (fun e => r e && p e) l.
Proof.
  induction l as [|e l IH]; simpl; [reflexivity|].
  destruct (r e); simpl; [destruct (p e)|]; now rewrite IH.
Qed.

(** X10.  Once a book is deleted, nothing is listed for it any more, and what
    is listed for any other book is what was listed before. *)
Theorem deleteBook_then_listings (id : string) (st : MemStorage.t) :
  Spec.wellFormed st ->
  let st' := snd (MemStorage.deleteBook id st) in
  MemStorage.getChaptersByBookId id st' = []
  /\ MemStorage.getCoversByBookId id st' = []
  /\ (forall other, other <> id ->
        MemStorage.getChaptersByBookId other st' = MemStorage.getChaptersByBookId other st
        /\ MemStorage.getCoversByBookId other st' = MemStorage.getCoversByBookId other st).
Proof.
  intros [Hb Hc Hv Hu]. cbv zeta.
  unfold MemStorage.deleteBook, JsMap.delete, MemStorage.getChaptersByBookId,
    MemStorage.getCoversByBookId.
  cbn [fst snd MemStorage.chapters MemStorage.covers].
  rewrite (deleteEach_selected Chapter.id
             (fun chapter => String.eqb (Chapter.bookId chapter) id) _ Hc).
  rewrite (deleteEach_selected Cover.id
             (fun cover => String.eqb (Cover.bookId cover) id) _ Hv).
  rewrite (filter_values (fun ch => negb (String.eqb (Chapter.bookId ch) id))).
  rewrite (filter_values (fun cv => negb (String.eqb (Cover.bookId cv) id))).
  rewrite !filter_filter_list.
  assert (E : forall A (l : list A) (p : A -> bool),
             (forall x, p x = false) -> filter p l = []).
  { intros A l p H. induction l as [|x l IH]; simpl; [reflexivity|].
    now rewrite H. }
  split; [| split].
  - rewrite E; [reflexivity|]. intros x. now destruct (String.eqb _ _).
  - rewrite E; [reflexivity|]. intros x. now destruct (String.eqb _ _).
  - intros other N. rewrite !filter_filter_list. split; f_equal; apply filter_ext; intros x.
    + destruct (String.eqb_spec (Chapter.bookId x) other) as [->|];
        [|now rewrite andb_false_r].
      rewrite andb_true_r. now apply negb_true_iff, String.eqb_neq.
    + destruct (String.eqb_spec (Cover.bookId x) other) as [->|];
        [|now rewrite andb_false_r].
      rewrite andb_true_r. now apply negb_true_iff, String.eqb_neq.
Qed.

Lemma deleteBook_then_listings_witness :
  Spec.wellFormed Spec.sampleState
  /\ MemStorage.getChaptersByBookId "b1" (snd (MemStorage.deleteBook "b1" Spec.sampleState)) = []
  /\ MemStorage.getChaptersByBookId "b2" (snd (MemStorage.deleteBook "b1" Spec.sampleState))
     = MemStorage.getChaptersByBookId "b2" Spec.sampleState.
Proof.
  assert (W : Spec.wellFormed Spec.sampleState)
    by (apply reachable_wellFormed; repeat constructor).
  split; [exact W|].
  destruct (deleteBook_then_listings "b1" Spec.sampleState W) as (H1 & _ & H3).
  split; [exact H1|]. apply (H3 "b2"). discriminate.
Defined.

(** *** Statistics *)

Lemma fold_left_sum {A} (f : A -> Z) (l : list A) (a : Z) :
  fold_left (fun total x => (total + f x)%Z) l a
  = (a + fold_left (fun total x => (total + f x)%Z) l 0)%Z.
Proof.
  revert a. induction l as [|x l IH]; intros a; simpl; [lia|].
  rewrite IH, (IH (f x)). lia.
Qed.

Lemma values_app {V} (m1 m2 : JsMap.t V) :
  JsMap.values (m1 ++ m2)%list = (JsMap.values m1 ++ JsMap.values m2)%list.
Proof. apply map_app. Qed.



(** *** Users *)

(** X12.  [createUser] does not look for the username among the stored users:
    the user is stored under the new id even when the name is taken, and
    [getUserByUsername] then still answers the earlier user. *)
Theorem createUser_getUserByUsername
    (u : InsertUser.t) (id : string) (st : MemStorage.t) :
  JsMap.get id (MemStorage.users st) = None ->
  let user := fst (MemStorage.createUser u id st) in
  let st' := snd (MemStorage.createUser u id st) in
  MemStorage.getUser id st' = Some user
  /\ User.username user = InsertUser.username u
  /\ MemStorage.getUserByUsername (InsertUser.username u) st'
     = match MemStorage.getUserByUsername (InsertUser.username u) st with
       | Some earlier => Some earlier
       | None => Some user
       end.
Proof.
  intros G. cbv zeta. unfold MemStorage.createUser, MemStorage.getUser,
    MemStorage.getUserByUsername.
  cbn [fst snd MemStorage.users User.username].
  split; [apply get_set_same|]. split; [reflexivity|].
  rewrite (set_fresh _ _ _ G), values_app.
  induction (JsMap.values (MemStorage.users st)) as [|x l IH].
  - cbn. now rewrite String.eqb_refl.
  - cbn [app find]. destruct (String.eqb (User.username x) (InsertUser.username u));
      [reflexivity | exact IH].
Qed.

Lemma createUser_getUserByUsername_witness :
  JsMap.get "u2" (MemStorage.users
                    (snd (MemStorage.createUser (InsertUser.mk "ann" "h1" None None) "u1"
                            MemStorage.new))) = None
  /\ option_map User.id
       (MemStorage.getUserByUsername "ann"
          (snd (MemStorage.createUser (InsertUser.mk "ann" "h2" None None) "u2"
             (snd (MemStorage.createUser (InsertUser.mk "ann" "h1" None None) "u1"
                     MemStorage.new)))))
     = Some "u1".
Proof.
  split; [reflexivity|].
  pose proof (createUser_getUserByUsername (InsertUser.mk "ann" "h2" None None) "u2"
                (snd (MemStorage.createUser (InsertUser.mk "ann" "h1" None None) "u1"
                        MemStorage.new)) eq_refl) as (_ & _ & H).
  cbn [InsertUser.username] in H. rewrite H. reflexivity.
Defined.



(** ** The server's document processor *)

Lemma split_from_not_nil (sep : string) (skip : nat) (cur s : string) :
  split_from sep skip cur s <> [].
Proof.
  revert skip cur. induction s as [|c s IH]; intros skip cur; [discriminate|].
  cbn [split_from]. destruct skip; [|apply IH].
  destruct (startsWith sep (String c s)); [discriminate | apply IH].
Qed.

Lemma pop_some (l : list string) : l <> [] -> exists e, pop l = Some e.
Proof.
  induction l as [|x l IH]; [congruence|]. intros _.
  destruct l as [|y l]; [now exists x|].
  destruct IH as [e He]; [discriminate|]. exists e. exact He.
Qed.

(** The last piece of a split always exists: [extension] is never
    [undefined]. *)
Lemma extension_defined (filename : string) :
  exists e, pop (split "." (toLowerCase filename)) = Some e.
Proof. apply pop_some, split_from_not_nil. Qed.

Lemma processDocument_cases (draw : N -> N) (file filename : string) :
  let extension := orEmpty (pop (split "." (toLowerCase filename))) in
  if arrayIncludes Spec.processedExtensions extension
  then exists document, DocumentProcessor.processDocument draw file filename = inr document
  else DocumentProcessor.processDocument draw file filename
       = inl (ExportUtils.ErrorObj
                ("Failed to process document: Unsupported file format: " ++ extension)).
Proof.
  cbv zeta. unfold DocumentProcessor.processDocument.
  destruct (extension_defined filename) as [e ->]. cbn [orEmpty].
  unfold DocumentProcessor.dispatch, arrayIncludes, Spec.processedExtensions.
  cbn [existsb].
  destruct (String.eqb e "txt"); [now eexists|].
  destruct (String.eqb e "md"); [now eexists|].
  destruct (String.eqb e "markdown"); [now eexists|].
  destruct (String.eqb e "pdf"); [now eexists|].
  destruct (String.eqb e "docx"); [now eexists|].
  destruct (String.eqb e "odt"); [now eexists|].
  destruct (String.eqb e "rtf"); [now eexists|].
  reflexivity.
Qed.

(** X14.  [processDocument] handles exactly the extensions txt, md,
    markdown, pdf, docx, odt and rtf; for every other file name it throws
    an error whose message is [Failed to process document: Unsupported
    file format: ] followed by the lower-cased text after the last dot. *)
Theorem processDocument_dispatch (draw : N -> N) (file filename : string) :
  let extension := orEmpty (pop (split "." (toLowerCase filename))) in
  if arrayIncludes Spec.processedExtensions extension
  then exists document, DocumentProcessor.processDocument draw file filename = inr document
  else DocumentProcessor.processDocument draw file filename
       = inl (ExportUtils.ErrorObj
                ("Failed to process document: Unsupported file format: " ++ extension)).
Proof.
  cbv zeta. unfold DocumentProcessor.processDocument.
  destruct (extension_defined filename) as [e ->]. cbn [orEmpty].
  unfold DocumentProcessor.dispatch, arrayIncludes, Spec.processedExtensions.
  cbn [existsb].
  destruct (String.eqb e "txt"); [now eexists|].
  destruct (String.eqb e "md"); [now eexists|].
  destruct (String.eqb e "markdown"); [now eexists|].
  destruct (String.eqb e "pdf"); [now eexists|].
  destruct (String.eqb e "docx"); [now eexists|].
  destruct (String.eqb e "odt"); [now eexists|].
  destruct (String.eqb e "rtf"); [now eexists|].
  reflexivity.
Qed.

(** X15.  Spreadsheet and presentation files pass [validateFileType] and
    are then refused by [processDocument]: for every name ending in
    [.ods] or [.odp] the validation answers [true] and the processing
    throws [Unsupported file format]. *)
Theorem ods_odp_validated_but_not_processed (draw : N -> N) (file base : string) :
  (DocumentUtils.validateFileType (base ++ ".ods") = true
   /\ DocumentProcessor.processDocument draw file (base ++ ".ods")
      = inl (ExportUtils.ErrorObj
               "Failed to process document: Unsupported file format: ods"))
  /\ (DocumentUtils.validateFileType (base ++ ".odp") = true
      /\ DocumentProcessor.processDocument draw file (base ++ ".odp")
         = inl (ExportUtils.ErrorObj
                  "Failed to process document: Unsupported file format: odp")).
Proof.
  split; split.
  - now rewrite (validateFileType_dotted base "ods").
  - unfold DocumentProcessor.processDocument, split.
    rewrite toLowerCase_append.
    change (toLowerCase ".ods") with (String "." "ods").
    now rewrite pop_split_last_dot.
  - now rewrite (validateFileType_dotted base "odp").
  - unfold DocumentProcessor.processDocument, split.
    rewrite toLowerCase_append.
    change (toLowerCase ".odp") with (String "." "odp").
    now rewrite pop_split_last_dot.
Qed.

(** Everything [processDocument] handles is accepted by
    [validateFileType]. *)
Lemma processed_extensions_are_allowed (e : string) :
  arrayIncludes Spec.processedExtensions e = true ->
  arrayIncludes DocumentUtils.allowedExtensions e = true.
Proof.
  unfold arrayIncludes, Spec.processedExtensions, DocumentUtils.allowedExtensions.
  cbn [existsb].
  destruct (String.eqb e "txt"), (String.eqb e "md"), (String.eqb e "markdown"),
    (String.eqb e "pdf"), (String.eqb e "docx"), (String.eqb e "odt"),
    (String.eqb e "rtf"); cbn; try reflexivity; discriminate.
Qed.

(** X16.  A file name that [validateFileType] refuses is never processed:
    [processDocument] throws for it. *)
Theorem refused_names_are_not_processed (draw : N -> N) (file filename : string) :
  DocumentUtils.validateFileType filename = false ->
  exists message,
    DocumentProcessor.processDocument draw file filename
    = inl (ExportUtils.ErrorObj message).
Proof.
  intros H. pose proof (processDocument_cases draw file filename) as D.
  cbv zeta in D. unfold DocumentUtils.validateFileType in H.
  destruct (arrayIncludes Spec.processedExtensions _) eqn:E.
  - apply processed_extensions_are_allowed in E. congruence.
  - eexists. exact D.
Qed.

Lemma refused_names_are_not_processed_witness :
  DocumentUtils.validateFileType "setup.exe" = false
  /\ exists message,
       DocumentProcessor.processDocument (fun _ => 0%N) "MZ" "setup.exe"
       = inl (ExportUtils.ErrorObj message).
Proof.
  split; [reflexivity|].
  exact (refused_names_are_not_processed (fun _ => 0%N) "MZ" "setup.exe" eq_refl).
Defined.

(** *** The word count in the summary of a text file *)

Lemma length_splitWs_from (s : string) :
  List.length (splitWs_from true "" s)
    = Spec.countWords false s + Spec.b2n (match s with "" => true | _ => Spec.endsBlank s end)
  /\ (forall cur, Spec.nonEmpty cur = true ->
      List.length (splitWs_from false cur s)
      = 1 + Spec.countWords true s + Spec.b2n (Spec.endsBlank s)).
Proof.
  induction s as [|c s [IHa IHb]]; split.
  - reflexivity.
  - intros cur _. reflexivity.
  - cbn [splitWs_from Spec.countWords]. destruct (isWhiteSpace c) eqn:W.
    + rewrite IHa. cbn [Spec.endsBlank]. rewrite W. now destruct s.
    + cbn [append]. rewrite IHb by apply (nonEmpty_snoc "").
      cbn [Spec.endsBlank]. rewrite W. destruct s; cbn [Spec.endsBlank Spec.b2n]; lia.
  - intros cur H. cbn [splitWs_from Spec.countWords]. destruct (isWhiteSpace c) eqn:W.
    + cbn [List.length]. rewrite IHa. cbn [Spec.endsBlank]. rewrite W.
      destruct s; cbn [Spec.b2n]; lia.
    + rewrite IHb by apply nonEmpty_snoc. cbn [Spec.endsBlank]. rewrite W.
      destruct s; cbn [Spec.endsBlank Spec.b2n]; lia.
Qed.

(** X17.  The word count in the summary of a text file is taken from the
    untrimmed text with the empty pieces left in: it is the count of
    [calculateWordCount] plus one when the file is empty or begins with
    white space, plus one when it ends with white space, so never zero. *)
Theorem processTextFile_summary_count (file : string) :
  let counted :=
    DocumentProcessor.calculateWordCount file
    + Spec.b2n (Spec.startsBlank file) + Spec.b2n (Spec.endsBlank file) in
  DocumentProcessor.summary (DocumentProcessor.processTextFile file)
    = "Text document with " ++ natToString counted ++ " words"
  /\ 1 <= counted
  /\ DocumentProcessor.text (DocumentProcessor.processTextFile file) = trim file.
Proof.
  cbv zeta. rewrite (proj2 (calculateWordCount_both file)).
  unfold DocumentProcessor.processTextFile, splitWs.
  cbn [DocumentProcessor.summary DocumentProcessor.text].
  assert (E : List.length (splitWs_from false "" file)
              = Spec.countWords false file + Spec.b2n (Spec.startsBlank file)
                + Spec.b2n (Spec.endsBlank file)).
  { destruct file as [|c s]; [reflexivity|].
    cbn [splitWs_from Spec.countWords Spec.startsBlank].
    destruct (isWhiteSpace c) eqn:W.
    - cbn [List.length]. rewrite (proj1 (length_splitWs_from s)).
      cbn [Spec.endsBlank]. rewrite W. destruct s; cbn [Spec.b2n]; lia.
    - cbn [append]. rewrite (proj2 (length_splitWs_from s)) by apply (nonEmpty_snoc "").
      cbn [Spec.endsBlank]. rewrite W. destruct s; cbn [Spec.endsBlank Spec.b2n]; lia. }
  rewrite E. split; [reflexivity|]. split; [|reflexivity].
  destruct file as [|c s]; [cbn; lia|].
  cbn [Spec.countWords Spec.startsBlank]. destruct (isWhiteSpace c); cbn [Spec.b2n]; lia.
Qed.

(** ** Reading generated documents *)

Lemma lacks_append (c : ascii) (a b : string) :
  Spec.lacks c (a ++ b) = Spec.lacks c a && Spec.lacks c b.
Proof.
  induction a as [|x a IH]; simpl; [reflexivity|].
  now rewrite IH, andb_assoc.
Qed.

Lemma startsWith_append (p r : string) : startsWith p (p ++ r) = true.
Proof.
  induction p as [|x p IH]; simpl; [reflexivity|].
  now rewrite Ascii.eqb_refl, IH.
Qed.

Lemma startsWith_extend (p s r : string) :
  startsWith p s = true -> startsWith p (s ++ r) = true.
Proof.
  revert s. induction p as [|x p IH]; intros s; simpl; [reflexivity|].
  destruct s as [|y s]; simpl; [discriminate|].
  intros H. apply andb_true_iff in H as [H1 H2]. now rewrite H1, IH.
Qed.

Lemma startsWith_not_extend (p s r : string) :
  startsWith p s = false -> startsWith s p = false ->
  startsWith p (s ++ r) = false.
Proof.
  revert s. induction p as [|x p IH]; intros s; simpl; [discriminate|].
  destruct s as [|y s]; simpl; [discriminate|].
  rewrite (Ascii.eqb_sym y x).
  destruct (Ascii.eqb x y); simpl; [apply IH | reflexivity].
Qed.

Lemma drop_extend (p s r : string) :
  startsWith p s = true ->
  Spec.drop (String.length p) (s ++ r) = Spec.drop (String.length p) s ++ r.
Proof.
  revert s. induction p as [|x p IH]; intros s; simpl.
  - now destruct s.
  - destruct s as [|y s]; simpl; [discriminate|].
    intros H. apply andb_true_iff in H as [_ H]. now apply IH.
Qed.

Lemma drop_append (p r : string) : Spec.drop (String.length p) (p ++ r) = r.
Proof.
  induction p as [|x p IH]; simpl; [now destruct r | exact IH].
Qed.

Lemma takeUntil_extend (stop : ascii) (s r : string) :
  Spec.lacks stop s = false -> Spec.takeUntil stop (s ++ r) = Spec.takeUntil stop s.
Proof.
  induction s as [|x s IH]; simpl; [discriminate|].
  destruct (Ascii.eqb x stop); simpl; [reflexivity|].
  intros H. now rewrite IH.
Qed.

Lemma takeUntil_stop (stop : ascii) (v r : string) :
  Spec.lacks stop v = true -> Spec.takeUntil stop (v ++ String stop r) = v.
Proof.
  induction v as [|x v IH]; simpl.
  - now rewrite Ascii.eqb_refl.
  - destruct (Ascii.eqb x stop); simpl; [discriminate|].
    intros H. now rewrite IH.
Qed.

Section Elements.
Variable o : ascii.          (* the first code unit of the opening *)
Variable opening' : string.  (* the rest of it *)
Variable stop : ascii.
Let opening := String o opening'.

(** Text without the first code unit of the opening is passed over. *)
Lemma elements_skip (a r : string) :
  Spec.lacks o a = true ->
  Spec.elements opening stop (a ++ r) = Spec.elements opening stop r.
Proof.
  induction a as [|x a IH]; simpl; [reflexivity|].
  intros H. apply andb_true_iff in H as [H1 H2].
  rewrite (Ascii.eqb_sym o x). apply negb_true_iff in H1. rewrite H1.
  simpl. now apply IH.
Qed.

(** Self-contained text is read on its own. *)
Lemma elements_selfContained (a r : string) :
  Spec.selfContained opening stop a = true ->
  Spec.elements opening stop (a ++ r)
  = (Spec.elements opening stop a ++ Spec.elements opening stop r)%list.
Proof.
  induction a as [|x a IH]; [reflexivity|].
  intros H. cbn [Spec.selfContained] in H. apply andb_true_iff in H as [H1 H2].
  change (String x a ++ r) with (String x (a ++ r)).
  cbn [Spec.elements].
  change (String x (a ++ r)) with (String x a ++ r).
  destruct (startsWith opening (String x a)) eqn:E.
  - rewrite (startsWith_extend _ _ r E), (drop_extend _ _ r E).
    apply negb_true_iff in H1. rewrite (takeUntil_extend _ _ r H1).
    cbn [app]. now rewrite (IH H2).
  - apply negb_true_iff in H1.
    rewrite (startsWith_not_extend _ _ r E H1). now apply IH.
Qed.

(** An element whose text [v] runs up to the stop. *)
Lemma elements_open (v r : string) :
  Spec.lacks o opening' = true ->
  Spec.lacks o v = true ->
  Spec.lacks stop v = true ->
  Spec.elements opening stop (opening ++ v ++ String stop r)
  = v :: Spec.elements opening stop (String stop r).
Proof.
  intros Ho Hv Hs.
  change (opening ++ v ++ String stop r)
    with (String o (opening' ++ v ++ String stop r)).
  cbn [Spec.elements].
  change (String o (opening' ++ v ++ String stop r))
    with (opening ++ v ++ String stop r).
  rewrite startsWith_append, drop_append, (takeUntil_stop _ _ _ Hs).
  now rewrite (elements_skip _ _ Ho), (elements_skip _ _ Hv).
Qed.

End Elements.

(** ** More on the utility functions of the exporter *)

Lemma sanitizeFilename_cons (c : ascii) (s : string) :
  ExportUtils.sanitizeFilename (String c s)
  = String (Spec.sanitizeChar c) (ExportUtils.sanitizeFilename s).
Proof.
  unfold ExportUtils.sanitizeFilename, Spec.sanitizeChar. cbn [replaceEach].
  destruct (isAlnum c); reflexivity.
Qed.

Lemma sanitizeChar_fixed (c : ascii) :
  Spec.sanitizeChar (Spec.sanitizeChar c) = Spec.sanitizeChar c
  /\ Spec.isSanitized (Spec.sanitizeChar c) = true.
Proof. each_char c; split; reflexivity. Qed.

(** X18.  A sanitized name holds only lower-case ASCII letters, digits and
    underscores, and sanitizing it again changes nothing. *)
Theorem sanitizeFilename_idempotent (s : string) :
  Spec.allChars Spec.isSanitized (ExportUtils.sanitizeFilename s) = true
  /\ ExportUtils.sanitizeFilename (ExportUtils.sanitizeFilename s)
     = ExportUtils.sanitizeFilename s.
Proof.
  induction s as [|c s [IH1 IH2]]; [split; reflexivity|].
  rewrite !sanitizeFilename_cons. cbn [Spec.allChars].
  destruct (sanitizeChar_fixed c) as [F1 F2].
  now rewrite F1, F2, IH1, IH2.
Qed.

Lemma lacks_escapeChar_quote (c x : ascii) :
  (c = "<" \/ c = ">" \/ c = dquote \/ c = "'")%char ->
  Spec.lacks c (Spec.escapeChar x) = true.
Proof.
  intros [-> | [-> | [-> | ->]]]; each_char x; reflexivity.
Qed.

(** X19.  Escaped text holds no [<], no [>], no double and no single
    quote, and escaping goes piece by piece: the escape of a
    concatenation is the concatenation of the escapes. *)
Theorem escapeXML_markup_free (a b : string) :
  Spec.lacks "<" (ExportUtils.escapeXML a) = true
  /\ Spec.lacks ">" (ExportUtils.escapeXML a) = true
  /\ Spec.lacks dquote (ExportUtils.escapeXML a) = true
  /\ Spec.lacks "'" (ExportUtils.escapeXML a) = true
  /\ ExportUtils.escapeXML (a ++ b) = ExportUtils.escapeXML a ++ ExportUtils.escapeXML b.
Proof.
  assert (L : forall c, (c = "<" \/ c = ">" \/ c = dquote \/ c = "'")%char ->
                        Spec.lacks c (ExportUtils.escapeXML a) = true).
  { intros c H. induction a as [|x a IH]; [reflexivity|].
    now rewrite escapeXML_cons, lacks_append, lacks_escapeChar_quote, IH. }
  repeat split; try (apply L; tauto). apply escapeXML_append.
Qed.

(** *** Paragraphs *)

Lemma split_from_first_blank_line (cur a b : string) :
  includes Spec.blankLine (a ++ String newline "") = false ->
  split_from Spec.blankLine 0 cur (a ++ Spec.blankLine ++ b)
  = (cur ++ a) :: split_from Spec.blankLine 0 "" b.
Proof.
  revert cur. induction a as [|c a IH]; intros cur H.
  - cbn. now rewrite append_empty_r.
  - cbn [append includes] in H. apply orb_false_iff in H as [H1 H2].
    cbn [append split_from].
    assert (S : startsWith Spec.blankLine (String c (a ++ Spec.blankLine ++ b)) = false).
    { unfold Spec.blankLine in *. cbn [startsWith] in *.
      destruct (Ascii.eqb newline c); [|reflexivity]. cbn [andb] in *.
      destruct a as [|c' a]; [discriminate H1|].
      cbn [append] in *. destruct (Ascii.eqb newline c'); [discriminate H1|reflexivity]. }
    rewrite S, (IH _ H2), append_assoc. reflexivity.
Qed.

Lemma join_cons (sep x : string) (l : list string) :
  l <> [] -> join sep (x :: l) = x ++ sep ++ join sep l.
Proof. destruct l; [congruence | reflexivity]. Qed.

(** X20.  Paragraphs are cut at blank lines, one by one from the left: when
    the text up to the first blank line is [a] ([a] followed by a newline
    holds no blank line), the output is the paragraph of [a], a newline,
    and the output for the text after that blank line. *)
Theorem formatChapterContent_first_paragraph (a b : string) :
  includes (String newline (String newline "")) (a ++ String newline "") = false ->
  ExportUtils.formatChapterContent (a ++ String newline (String newline "") ++ b)
  = "<p>" ++ ExportUtils.escapeXML (trim a) ++ "</p>" ++ String newline ""
    ++ ExportUtils.formatChapterContent b.
Proof.
  intros H. unfold ExportUtils.formatChapterContent, split.
  pose proof (split_from_first_blank_line "" a b H) as E.
  unfold Spec.blankLine in E. rewrite E. clear E. cbn [map append].
  rewrite join_cons.
  - cbn [append]. rewrite ?append_assoc. reflexivity.
  - intros E. apply map_eq_nil in E. exact (split_from_not_nil _ _ _ _ E).
Qed.

Lemma formatChapterContent_first_paragraph_witness :
  includes (String newline (String newline "")) ("Para one." ++ String newline "") = false
  /\ ExportUtils.formatChapterContent
       ("Para one." ++ String newline (String newline "") ++ "Para two.")
     = "<p>Para one.</p>" ++ String newline "" ++ "<p>Para two.</p>".
Proof.
  split; [reflexivity|].
  exact (formatChapterContent_first_paragraph "Para one." "Para two." eq_refl).
Defined.

(** *** Identifiers *)

Import ExportUtils.

Lemma toString16_digit (v : N) :
  (v < 16)%N ->
  exists c, toString16 v = String c "" /\ Spec.isHexDigit c = true.
Proof.
  intros H.
  assert (C : List.In v (map N.of_nat (seq 0 16))).
  { apply in_map_iff. exists (N.to_nat v). split; [apply N2Nat.id|].
    apply in_seq. lia. }
  cbn in C.
  repeat (destruct C as [<-|C]; [eexists; split; reflexivity|]). destruct C.
Qed.

Lemma toString16_variant (r : N) :
  (r < 16)%N ->
  exists c, toString16 (N.lor (N.land r 3) 8) = String c "" /\ Spec.isVariantDigit c = true.
Proof.
  intros H.
  assert (C : List.In r (map N.of_nat (seq 0 16))).
  { apply in_map_iff. exists (N.to_nat r). split; [apply N2Nat.id|].
    apply in_seq. lia. }
  cbn in C.
  repeat (destruct C as [<-|C]; [eexists; split; reflexivity|]). destruct C.
Qed.

(** X21.  With every draw in 0..15, [generateUUID] returns (it never
    throws and causes no event), takes 31 draws, and gives an identifier
    of the shape xxxxxxxx-xxxx-4xxx-yxxx-xxxxxxxxxxxx: 36 code units,
    hexadecimal digits for x and one of 8, 9, a, b for y. *)
Theorem generateUUID_shape (h : Host) (cur : nat) :
  (forall n, (random16 h n < 16)%N) ->
  exists uuid,
    generateUUID h cur = mkRun [] (31 + cur) (inr uuid)
    /\ Spec.hasShape "xxxxxxxx-xxxx-4xxx-yxxx-xxxxxxxxxxxx" uuid = true
    /\ String.length uuid = 36.
Proof.
  intros R. unfold generateUUID. cbn -[toString16 N.lor N.land].
  repeat match goal with
  | |- context [toString16 (N.lor (N.land ?r 3) 8)] =>
      let c := fresh "c" in let E := fresh "E" in let D := fresh "D" in
      destruct (toString16_variant r (R _)) as [c [E D]]; rewrite E; clear E
  end.
  repeat match goal with
  | |- context [toString16 (random16 h ?n)] =>
      let c := fresh "c" in let E := fresh "E" in let D := fresh "D" in
      destruct (toString16_digit (random16 h n) (R n)) as [c [E D]]; rewrite E; clear E
  end.
  eexists. split; [reflexivity|]. cbn [append Spec.hasShape Ascii.eqb Bool.eqb String.length].
  repeat match goal with D : _ = true |- _ => rewrite D; clear D end.
  split; reflexivity.
Qed.

Lemma generateUUID_shape_witness :
  (forall n, (random16 Spec.quietHost n < 16)%N)
  /\ exists uuid,
       generateUUID Spec.quietHost 0 = mkRun [] 31 (inr uuid)
       /\ Spec.hasShape "xxxxxxxx-xxxx-4xxx-yxxx-xxxxxxxxxxxx" uuid = true
       /\ String.length uuid = 36.
Proof.
  assert (R : forall n, (random16 Spec.quietHost n < 16)%N)
    by (intros n; cbn; destruct (Nat.even n); reflexivity).
  split; [exact R | exact (generateUUID_shape Spec.quietHost 0 R)].
Defined.

Example generateUUID_sample :
  outcome (generateUUID Spec.quietHost 0) = inr "3c3c3c3c-3c3c-43c3-83c3-c3c3c3c3c3c3".
Proof. reflexivity. Qed.

(** ** Runs of the exporters *)

Lemma run_eta {A} (r : Run A) : mkRun (events r) (cursor r) (outcome r) = r.
Proof. now destruct r. Qed.

(** A step that returns without events hands over to what follows. *)
Lemma bind_quiet {A B} (m : Exec A) (k : A -> Exec B) (c c' : nat) (a : A) :
  m c = mkRun [] c' (inr a) -> bind m k c = k a c'.
Proof.
  intros E. unfold bind. rewrite E. cbn [outcome events cursor app]. apply run_eta.
Qed.

Lemma generateUUID_run (h : Host) (cur : nat) :
  generateUUID h cur = mkRun [] (31 + cur) (inr (Spec.uuidAt h cur)).
Proof.
  unfold Spec.uuidAt, generateUUID. cbn -[toString16 N.lor N.land]. reflexivity.
Qed.

Lemma createContentOPF_run (h : Host) (book : Book.t) (options : ExportOptions) (cur : nat) :
  createContentOPF h book options cur
  = mkRun [] (31 + cur) (inr (contentOPF book options (Spec.uuidAt h cur))).
Proof.
  unfold createContentOPF. now rewrite (bind_quiet _ _ _ _ _ (generateUUID_run h cur)).
Qed.

Lemma createTOCNCX_run (h : Host) (book : Book.t) (cur : nat) :
  createTOCNCX h book cur
  = mkRun [] (31 + cur) (inr (tocNCX book (Spec.uuidAt h cur))).
Proof.
  unfold createTOCNCX. now rewrite (bind_quiet _ _ _ _ _ (generateUUID_run h cur)).
Qed.

(** Both archive exporters build their archive with two identifiers drawn
    one after the other, and then go through the cover, the generation
    and the download. *)
Lemma exportToEPUB_steps (h : Host) (book : Book.t) (options : ExportOptions) (cur : nat) :
  exportToEPUB h book options cur
  = Spec.finishArchive h book options
      (Spec.builtArchive (createEPUBCSS options) h book options cur)
      (sanitizeFilename (Book.title book) ++ ".epub") (62 + cur).
Proof.
  unfold exportToEPUB.
  rewrite (bind_quiet _ _ _ _ _ (createContentOPF_run h book options cur)).
  rewrite (bind_quiet _ _ _ _ _ (createTOCNCX_run h book (31 + cur))).
  reflexivity.
Qed.

Lemma exportToKindle_steps (h : Host) (book : Book.t) (options : ExportOptions) (cur : nat) :
  exportToKindle h book options cur
  = Spec.finishArchive h book options
      (Spec.builtArchive (createKindleCSS options) h book options cur)
      (sanitizeFilename (Book.title book) ++ "_kindle.epub") (62 + cur).
Proof.
  unfold exportToKindle.
  rewrite (bind_quiet _ _ _ _ _ (createContentOPF_run h book options cur)).
  rewrite (bind_quiet _ _ _ _ _ (createTOCNCX_run h book (31 + cur))).
  reflexivity.
Qed.

(** *** The cover *)

Lemma addCover_cases (h : Host) (book : Book.t) (options : ExportOptions)
    (zip : Zip) (cur : nat) :
  addCover h book options zip cur
  = if truthy (Book.coverUrl book) && includeImages options
    then match fetchBlob h (orEmpty (Book.coverUrl book)) with
         | inr body => mkRun [] cur (inr (zipSet "OEBPS/cover.jpg" (Binary body) zip))
         | inl e => mkRun [ConsoleWarn "Could not include cover image:" e] cur (inr zip)
         end
    else mkRun [] cur (inr zip).
Proof.
  unfold addCover. destruct (truthy _ && includeImages options); [|reflexivity].
  unfold tryCatch, bind, fetchCover.
  destruct (fetchBlob h _); reflexivity.
Qed.


(** *** From the built archive to the download *)

Lemma finishArchive_run (h : Host) (book : Book.t) (options : ExportOptions)
    (zip : Zip) (filename : string) (cur : nat) :
  Spec.finishArchive h book options zip filename cur
  = let zip' := Spec.withCoverImage h book options zip in
    let warnings := Spec.coverWarnings h book options in
    match generateFails h zip' with
    | Some e => mkRun warnings cur (inl e)
    | None =>
        match saveFails h (ZipBlob zip') filename with
        | Some e => mkRun warnings cur (inl e)
        | None => mkRun (warnings ++ [Download (ZipBlob zip') filename])%list cur (inr tt)
        end
    end.
Proof.
  unfold Spec.finishArchive, Spec.withCoverImage, Spec.coverWarnings.
  unfold bind at 1. rewrite addCover_cases.
  destruct (truthy _ && includeImages options);
    [destruct (fetchBlob h _) as [e|body]|];
    cbn [outcome events cursor app]; cbv zeta;
    unfold generateAsync, saveAs, bind, failing, emit, throw, ret;
    (destruct (generateFails h _); cbn [outcome events cursor app]; [reflexivity|]);
    (destruct (saveFails h _ _); cbn [outcome events cursor app]; reflexivity).
Qed.

Lemma downloads_coverWarnings (h : Host) (book : Book.t) (options : ExportOptions) :
  Spec.downloads (Spec.coverWarnings h book options) = [].
Proof.
  unfold Spec.coverWarnings.
  destruct (truthy _ && includeImages options); [|reflexivity].
  now destruct (fetchBlob h _).
Qed.

Lemma downloads_app (a b : list Event) :
  Spec.downloads (a ++ b) = (Spec.downloads a ++ Spec.downloads b)%list.
Proof. apply flat_map_app. Qed.

(** What both archive exporters have in common, for a built archive [zip]
    and a file name. *)
Lemma finishArchive_outcome (h : Host) (book : Book.t) (options : ExportOptions)
    (zip : Zip) (filename : string) (cur : nat) :
  let r := Spec.finishArchive h book options zip filename cur in
  let zip' := Spec.withCoverImage h book options zip in
  cursor r = cur
  /\ match outcome r with
     | inl e =>
         Spec.downloads (events r) = []
         /\ (generateFails h zip' = Some e
             \/ (generateFails h zip' = None /\ saveFails h (ZipBlob zip') filename = Some e))
     | inr _ =>
         Spec.downloads (events r) = [(ZipBlob zip', filename)]
         /\ generateFails h zip' = None
         /\ saveFails h (ZipBlob zip') filename = None
     end.
Proof.
  cbv zeta. rewrite finishArchive_run. cbv zeta.
  destruct (generateFails h _) eqn:G; cbn [cursor outcome events].
  - rewrite downloads_coverWarnings. auto.
  - destruct (saveFails h _ _) eqn:S; cbn [cursor outcome events].
    + rewrite downloads_coverWarnings. auto.
    + rewrite downloads_app, downloads_coverWarnings. auto.
Qed.

(** X23.  [exportToEPUB] and [exportToKindle] take 62 draws (two
    identifiers) and then either resolve, having offered exactly one
    download, an archive named from the sanitized title with the ending
    [.epub] for the one and [_kindle.epub] for the other, or reject with
    the error of the archive generation or of the save, having offered
    nothing.  A failing fetch of the cover is never the reason of a
    rejection. *)
Theorem archive_exporters_outcome (h : Host) (book : Book.t) (options : ExportOptions)
    (cur : nat) :
  (let r := exportToEPUB h book options cur in
   let filename := sanitizeFilename (Book.title book) ++ ".epub" in
   exists zip,
     cursor r = 62 + cur
     /\ match outcome r with
        | inl e =>
            Spec.downloads (events r) = []
            /\ (generateFails h zip = Some e
                \/ (generateFails h zip = None
                    /\ saveFails h (ZipBlob zip) filename = Some e))
        | inr _ =>
            Spec.downloads (events r) = [(ZipBlob zip, filename)]
            /\ generateFails h zip = None
            /\ saveFails h (ZipBlob zip) filename = None
        end)
  /\ (let r := exportToKindle h book options cur in
      let filename := sanitizeFilename (Book.title book) ++ "_kindle.epub" in
      exists zip,
        cursor r = 62 + cur
        /\ match outcome r with
           | inl e =>
               Spec.downloads (events r) = []
               /\ (generateFails h zip = Some e
                   \/ (generateFails h zip = None
                       /\ saveFails h (ZipBlob zip) filename = Some e))
           | inr _ =>
               Spec.downloads (events r) = [(ZipBlob zip, filename)]
               /\ generateFails h zip = None
               /\ saveFails h (ZipBlob zip) filename = None
           end).
Proof.
  cbv zeta. split.
  - rewrite exportToEPUB_steps. eexists. apply finishArchive_outcome.
  - rewrite exportToKindle_steps. eexists. apply finishArchive_outcome.
Qed.

(** X30.  [exportToDocx] draws nothing and either resolves, having offered
    exactly one download, named from the sanitized title with the ending
    [.docx] and holding the HTML of [createWordHTML] under the Word media
    type, or rejects with the error of the save, having offered nothing. *)
Theorem exportToDocx_outcome (h : Host) (book : Book.t) (options : ExportOptions)
    (cur : nat) :
  let r := exportToDocx h book options cur in
  let filename := sanitizeFilename (Book.title book) ++ ".docx" in
  let data :=
    PartsBlob [createWordHTML book options]
      "application/vnd.openxmlformats-officedocument.wordprocessingml.document" in
  cursor r = cur
  /\ match saveFails h data filename with
     | Some e => outcome r = inl e /\ events r = []
     | None => outcome r = inr tt /\ events r = [Download data filename]
     end.
Proof.
  cbv zeta. unfold exportToDocx, saveAs, bind, failing, emit, throw, ret.
  destruct (saveFails h _ _); cbn [cursor outcome events app]; auto.
Qed.

(** *** The entries of an archive *)

Lemma zipGet_zipSet_same (n : string) (d : FileData) (z : Zip) :
  zipGet n (zipSet n d z) = Some d.
Proof.
  induction z as [|[n' d'] z IH]; cbn [zipSet zipGet].
  - now rewrite String.eqb_refl.
  - destruct (String.eqb n' n) eqn:E; cbn [zipGet]; rewrite E; [reflexivity | exact IH].
Qed.

Lemma zipGet_zipSet_other (n m : string) (d : FileData) (z : Zip) :
  m <> n -> zipGet n (zipSet m d z) = zipGet n z.
Proof.
  intros N. induction z as [|[n' d'] z IH]; cbn [zipSet zipGet].
  - destruct (String.eqb_spec m n); [congruence | reflexivity].
  - destruct (String.eqb_spec n' m) as [->|N']; cbn [zipGet].
    + destruct (String.eqb_spec m n); [congruence | reflexivity].
    + destruct (String.eqb n' n); [reflexivity | exact IH].
Qed.

Lemma zipGet_none_names (n : string) (z : Zip) :
  zipGet n z = None <-> ~ In n (map fst z).
Proof.
  induction z as [|[n' d'] z IH]; cbn [zipGet map fst In]; [tauto|].
  destruct (String.eqb_spec n' n) as [->|N]; [split; [discriminate | tauto]|].
  rewrite IH. tauto.
Qed.

Lemma names_zipSet_fresh (n : string) (d : FileData) (z : Zip) :
  ~ In n (map fst z) -> map fst (zipSet n d z) = (map fst z ++ [n])%list.
Proof.
  induction z as [|[n' d'] z IH]; cbn [zipSet map fst In app]; [reflexivity|].
  intros H. destruct (String.eqb_spec n' n) as [->|N]; [tauto|].
  cbn [map fst]. rewrite IH; tauto.
Qed.

Lemma names_zipSet_present (n : string) (d : FileData) (z : Zip) :
  In n (map fst z) -> map fst (zipSet n d z) = map fst z.
Proof.
  induction z as [|[n' d'] z IH]; cbn [zipSet map fst In]; [tauto|].
  intros H. destruct (String.eqb_spec n' n) as [->|N]; [reflexivity|].
  cbn [map fst]. rewrite IH; [reflexivity|]. destruct H; [contradiction | assumption].
Qed.

Lemma hd_zipSet (n : string) (d : FileData) (z : Zip) (e : string * FileData) :
  hd_error z = Some e -> fst e <> n -> hd_error (zipSet n d z) = Some e.
Proof.
  destruct z as [|[n' d'] z]; [discriminate|]. cbn [hd_error zipSet].
  intros [= <-] N. cbn [fst] in N.
  destruct (String.eqb_spec n' n); [contradiction | reflexivity].
Qed.

(** The decimal text of a number determines the number. *)
Lemma natToString_inj (a b : nat) : natToString a = natToString b -> a = b.
Proof.
  unfold natToString. intros H.
  apply (f_equal DecimalString.NilEmpty.uint_of_string) in H.
  rewrite !DecimalString.NilEmpty.usu in H. injection H as H.
  apply (f_equal Nat.of_uint) in H. now rewrite !DecimalNat.Unsigned.of_to in H.
Qed.

Lemma append_cancel_r (a b s : string) : a ++ s = b ++ s -> a = b.
Proof.
  revert b. induction a as [|x a IH]; intros [|y b] H; cbn [append] in H.
  - reflexivity.
  - exfalso. apply (f_equal String.length) in H. cbn [String.length] in H.
    rewrite length_append in H. lia.
  - exfalso. apply (f_equal String.length) in H. cbn [String.length] in H.
    rewrite length_append in H. lia.
  - injection H as -> H. f_equal. now apply IH.
Qed.

Lemma append_cancel_l (p a b : string) : p ++ a = p ++ b -> a = b.
Proof.
  induction p as [|x p IH]; cbn [append]; [tauto|]. intros [= H]. now apply IH.
Qed.

Lemma chapterFile_inj (i j : nat) : Spec.chapterFile i = Spec.chapterFile j -> i = j.
Proof.
  unfold Spec.chapterFile. intros H.
  apply append_cancel_l, append_cancel_r, natToString_inj in H. lia.
Qed.

Lemma chapterEntry_inj (i j : nat) : Spec.chapterEntry i = Spec.chapterEntry j -> i = j.
Proof. unfold Spec.chapterEntry. intros H. now apply append_cancel_l, chapterFile_inj in H. Qed.

Lemma chapterEntry_not_fixed (k : nat) :
  ~ In (Spec.chapterEntry k) (Spec.fixedEntries ++ ["OEBPS/cover.jpg"])%list.
Proof.
  unfold Spec.chapterEntry, Spec.chapterFile, Spec.fixedEntries. cbn [app In append].
  intros H. repeat (destruct H as [H|H]; [discriminate H|]). exact H.
Qed.

Lemma addChapters_step (i : nat) (ch : BookChapter.t) (rest : list BookChapter.t)
    (options : ExportOptions) (z : Zip) :
  addChapters i (ch :: rest) options z
  = addChapters (S i) rest options
      (zipSet (Spec.chapterEntry i) (Text (createChapterXHTML ch options)) z).
Proof. reflexivity. Qed.

Lemma zipGet_addChapters_other (n : string) (chs : list BookChapter.t) (i : nat)
    (options : ExportOptions) (z : Zip) :
  (forall k, i <= k -> Spec.chapterEntry k <> n) ->
  zipGet n (addChapters i chs options z) = zipGet n z.
Proof.
  revert i z. induction chs as [|ch chs IH]; intros i z H; [reflexivity|].
  rewrite addChapters_step, IH.
  - apply zipGet_zipSet_other, H. lia.
  - intros k Hk. apply H. lia.
Qed.

Lemma zipGet_addChapters_chapter (chs : list BookChapter.t) (i j : nat)
    (options : ExportOptions) (z : Zip) (ch : BookChapter.t) :
  nth_error chs j = Some ch ->
  zipGet (Spec.chapterEntry (i + j)) (addChapters i chs options z)
  = Some (Text (createChapterXHTML ch options)).
Proof.
  revert i j z. induction chs as [|c chs IH]; intros i j z H; [now destruct j|].
  rewrite addChapters_step. destruct j as [|j]; cbn [nth_error] in H.
  - injection H as ->. rewrite Nat.add_0_r, zipGet_addChapters_other.
    + apply zipGet_zipSet_same.
    + intros k Hk E. apply chapterEntry_inj in E. lia.
  - replace (i + S j) with (S i + j) by lia. now apply IH.
Qed.

Lemma names_addChapters (chs : list BookChapter.t) (i : nat)
    (options : ExportOptions) (z : Zip) :
  (forall k, i <= k -> ~ In (Spec.chapterEntry k) (map fst z)) ->
  map fst (addChapters i chs options z)
  = (map fst z ++ map Spec.chapterEntry (seq i (List.length chs)))%list.
Proof.
  revert i z. induction chs as [|ch chs IH]; intros i z H.
  - cbn. now rewrite app_nil_r.
  - rewrite addChapters_step, IH.
    + rewrite names_zipSet_fresh by (apply H; lia).
      cbn [List.length seq map]. now rewrite <- app_assoc.
    + intros k Hk. rewrite names_zipSet_fresh by (apply H; lia).
      intros I. apply in_app_or in I as [I|[E|[]]].
      * apply (H k); [lia | exact I].
      * apply chapterEntry_inj in E. lia.
Qed.

Lemma hd_addChapters (chs : list BookChapter.t) (i : nat)
    (options : ExportOptions) (z : Zip) (e : string * FileData) :
  hd_error z = Some e -> (forall k, Spec.chapterEntry k <> fst e) ->
  hd_error (addChapters i chs options z) = Some e.
Proof.
  revert i z. induction chs as [|ch chs IH]; intros i z H N; [exact H|].
  rewrite addChapters_step. apply IH; [|exact N].
  apply hd_zipSet; [exact H | intros E; exact (N i (eq_sym E))].
Qed.

(** *** The layout of the archive *)

Lemma builtArchive_names (css : string) (h : Host) (book : Book.t)
    (options : ExportOptions) (cur : nat) :
  map fst (Spec.builtArchive css h book options cur)
  = (Spec.fixedEntries
     ++ map Spec.chapterEntry (seq 0 (List.length (chaptersOf book))))%list.
Proof.
  unfold Spec.builtArchive. cbv zeta. rewrite names_addChapters; [reflexivity|].
  intros k _ I. apply (chapterEntry_not_fixed k), in_or_app. left. exact I.
Qed.

Lemma builtArchive_no_cover (css : string) (h : Host) (book : Book.t)
    (options : ExportOptions) (cur : nat) :
  ~ In "OEBPS/cover.jpg" (map fst (Spec.builtArchive css h book options cur)).
Proof.
  rewrite builtArchive_names. intros I. apply in_app_or in I as [I|I].
  - cbn in I. repeat (destruct I as [I|I]; [discriminate I|]). exact I.
  - apply in_map_iff in I as [k [E _]].
    apply (chapterEntry_not_fixed k), in_or_app. right. left. now symmetry.
Qed.

Lemma builtArchive_fixed (css : string) (h : Host) (book : Book.t)
    (options : ExportOptions) (cur : nat) (n : string) :
  In n Spec.fixedEntries ->
  zipGet n (Spec.builtArchive css h book options cur)
  = zipGet n
      [ ("mimetype", Text "application/epub+zip");
        ("META-INF/", Folder);
        ("META-INF/container.xml", Text createContainerXML);
        ("OEBPS/", Folder);
        ("OEBPS/content.opf", Text (contentOPF book options (Spec.uuidAt h cur)));
        ("OEBPS/toc.ncx", Text (tocNCX book (Spec.uuidAt h (31 + cur))));
        ("OEBPS/stylesheet.css", Text css);
        ("OEBPS/title.xhtml", Text (createTitlePage book));
        ("OEBPS/toc.xhtml", Text (createTOCPage book)) ].
Proof.
  intros I. unfold Spec.builtArchive. cbv zeta.
  rewrite zipGet_addChapters_other; [reflexivity|].
  intros k _ E. apply (chapterEntry_not_fixed k), in_or_app. left. now rewrite E.
Qed.

(** What the archive holds once the cover step is over. *)
Lemma archive_layout (css : string) (h : Host) (book : Book.t)
    (options : ExportOptions) (cur : nat) :
  let zip := Spec.withCoverImage h book options
               (Spec.builtArchive css h book options cur) in
  map fst zip
  = (Spec.fixedEntries
     ++ map Spec.chapterEntry (seq 0 (List.length (chaptersOf book)))
     ++ match zipGet "OEBPS/cover.jpg" zip with
        | Some _ => ["OEBPS/cover.jpg"]
        | None => []
        end)%list
  /\ hd_error zip = Some ("mimetype", Text "application/epub+zip")
  /\ (forall k chapter,
        nth_error (chaptersOf book) k = Some chapter ->
        zipGet (Spec.chapterEntry k) zip = Some (Text (createChapterXHTML chapter options)))
  /\ zipGet "OEBPS/cover.jpg" zip
     = (if truthy (Book.coverUrl book) && includeImages options
        then match fetchBlob h (orEmpty (Book.coverUrl book)) with
             | inr body => Some (Binary body)
             | inl _ => None
             end
        else None)
  /\ zipGet "META-INF/container.xml" zip = Some (Text createContainerXML)
  /\ zipGet "OEBPS/stylesheet.css" zip = Some (Text css)
  /\ zipGet "OEBPS/title.xhtml" zip = Some (Text (createTitlePage book))
  /\ zipGet "OEBPS/toc.xhtml" zip = Some (Text (createTOCPage book)).
Proof.
  cbv zeta.
  pose proof (builtArchive_no_cover css h book options cur) as NC.
  pose proof (builtArchive_names css h book options cur) as NM.
  assert (HD : hd_error (Spec.builtArchive css h book options cur)
               = Some ("mimetype", Text "application/epub+zip")).
  { unfold Spec.builtArchive. cbv zeta. apply hd_addChapters; [reflexivity|].
    intros k E. apply (chapterEntry_not_fixed k). left. now symmetry. }
  assert (CH : forall k chapter,
             nth_error (chaptersOf book) k = Some chapter ->
             zipGet (Spec.chapterEntry k) (Spec.builtArchive css h book options cur)
             = Some (Text (createChapterXHTML chapter options))).
  { intros k chapter H. unfold Spec.builtArchive. cbv zeta.
    exact (zipGet_addChapters_chapter _ 0 k _ _ _ H). }
  assert (FX : forall n d, In n Spec.fixedEntries ->
             zipGet n (Spec.builtArchive css h book options cur) = d ->
             zipGet n (Spec.withCoverImage h book options
                         (Spec.builtArchive css h book options cur)) = d).
  { intros n d I E. unfold Spec.withCoverImage.
    destruct (truthy _ && includeImages options); [|exact E].
    destruct (fetchBlob h _); [exact E|].
    rewrite zipGet_zipSet_other; [exact E|].
    intros <-. apply NC. rewrite NM. apply in_or_app. now left. }
  unfold Spec.withCoverImage.
  destruct (truthy (Book.coverUrl book) && includeImages options) eqn:C;
    [destruct (fetchBlob h _) as [e|body] eqn:F|].
  3: { apply zipGet_none_names in NC. rewrite NC, app_nil_r.
       repeat split; try assumption;
         rewrite builtArchive_fixed by (cbn; tauto); reflexivity. }
  1: { apply zipGet_none_names in NC. rewrite NC, app_nil_r.
       repeat split; try assumption;
         rewrite builtArchive_fixed by (cbn; tauto); reflexivity. }
  rewrite zipGet_zipSet_same, names_zipSet_fresh, NM, <- app_assoc by exact NC.
  split; [reflexivity|]. split; [|split; [|split; [reflexivity|]]].
  - apply hd_zipSet; [exact HD | discriminate].
  - intros k chapter H. rewrite zipGet_zipSet_other; [now apply CH|].
    intros E. apply (chapterEntry_not_fixed k), in_or_app. right. left. exact E.
  - repeat split; (rewrite zipGet_zipSet_other by discriminate);
      rewrite builtArchive_fixed by (cbn; tauto); reflexivity.
Qed.

Lemma downloadedArchive_finish (h : Host) (book : Book.t) (options : ExportOptions)
    (zip0 : Zip) (filename : string) (cur : nat) (zip : Zip) :
  Spec.downloadedArchive (Spec.finishArchive h book options zip0 filename cur) = Some zip ->
  zip = Spec.withCoverImage h book options zip0.
Proof.
  unfold Spec.downloadedArchive.
  pose proof (finishArchive_outcome h book options zip0 filename cur) as [_ H].
  destruct (outcome _); [destruct H as [-> _]; discriminate|].
  destruct H as [-> _]. now intros [= <-].
Qed.

(** X24.  The archive [exportToEPUB] offers begins with the [mimetype]
    entry; its entries are, in this order, the nine fixed ones, one
    [OEBPS/chapterK.xhtml] for each chapter of [Book.content] (K counting
    from 1) holding the page of that chapter, and [OEBPS/cover.jpg] at the
    end exactly when a cover URL is set, [includeImages] is on and the
    fetch succeeded; the stylesheet is that of [createEPUBCSS]. *)
Theorem exportToEPUB_archive (h : Host) (book : Book.t) (options : ExportOptions)
    (cur : nat) (zip : Zip) :
  Spec.downloadedArchive (exportToEPUB h book options cur) = Some zip ->
  map fst zip
  = (Spec.fixedEntries
     ++ map Spec.chapterEntry (seq 0 (List.length (chaptersOf book)))
     ++ match zipGet "OEBPS/cover.jpg" zip with
        | Some _ => ["OEBPS/cover.jpg"]
        | None => []
        end)%list
  /\ hd_error zip = Some ("mimetype", Text "application/epub+zip")
  /\ (forall k chapter,
        nth_error (chaptersOf book) k = Some chapter ->
        zipGet (Spec.chapterEntry k) zip = Some (Text (createChapterXHTML chapter options)))
  /\ zipGet "OEBPS/cover.jpg" zip
     = (if truthy (Book.coverUrl book) && includeImages options
        then match fetchBlob h (orEmpty (Book.coverUrl book)) with
             | inr body => Some (Binary body)
             | inl _ => None
             end
        else None)
  /\ zipGet "META-INF/container.xml" zip = Some (Text createContainerXML)
  /\ zipGet "OEBPS/stylesheet.css" zip = Some (Text (createEPUBCSS options))
  /\ zipGet "OEBPS/title.xhtml" zip = Some (Text (createTitlePage book))
  /\ zipGet "OEBPS/toc.xhtml" zip = Some (Text (createTOCPage book)).
Proof.
  rewrite exportToEPUB_steps. intros H.
  apply downloadedArchive_finish in H. subst zip. apply archive_layout.
Qed.

Lemma exportToEPUB_archive_witness :
  let zip :=
    Spec.withCoverImage Spec.quietHost Spec.scenarioBook (Spec.epubOptions true)
      (Spec.builtArchive (createEPUBCSS (Spec.epubOptions true)) Spec.quietHost
         Spec.scenarioBook (Spec.epubOptions true) 0) in
  Spec.downloadedArchive
    (exportToEPUB Spec.quietHost Spec.scenarioBook (Spec.epubOptions true) 0) = Some zip
  /\ map fst zip
     = (Spec.fixedEntries ++ ["OEBPS/chapter1.xhtml"; "OEBPS/cover.jpg"])%list.
Proof.
  cbv zeta.
  assert (D : Spec.downloadedArchive
                (exportToEPUB Spec.quietHost Spec.scenarioBook (Spec.epubOptions true) 0)
              = Some (Spec.withCoverImage Spec.quietHost Spec.scenarioBook
                        (Spec.epubOptions true)
                        (Spec.builtArchive (createEPUBCSS (Spec.epubOptions true))
                           Spec.quietHost Spec.scenarioBook (Spec.epubOptions true) 0)))
    by (rewrite exportToEPUB_steps; reflexivity).
  split; [exact D|].
  destruct (exportToEPUB_archive _ _ _ _ _ D) as (N & _).
  rewrite N. reflexivity.
Defined.

(** *** Kindle and EPUB *)

Lemma sameButStylesheet_zipSet (n : string) (d : FileData) (z1 z2 : Zip) :
  Spec.sameButStylesheet z1 z2 ->
  Spec.sameButStylesheet (zipSet n d z1) (zipSet n d z2).
Proof.
  unfold Spec.sameButStylesheet. induction 1 as [|[n1 d1] [n2 d2] r1 r2 [E1 E2] R IH].
  - repeat constructor.
  - cbn [fst snd] in *. subst n2. cbn [zipSet].
    destruct (String.eqb n1 n); constructor; cbn [fst snd]; auto.
Qed.

Lemma sameButStylesheet_addChapters (chs : list BookChapter.t) (i : nat)
    (options : ExportOptions) (z1 z2 : Zip) :
  Spec.sameButStylesheet z1 z2 ->
  Spec.sameButStylesheet (addChapters i chs options z1) (addChapters i chs options z2).
Proof.
  revert i z1 z2. induction chs as [|ch chs IH]; intros i z1 z2 H; [exact H|].
  cbn [addChapters]. apply IH. now apply sameButStylesheet_zipSet.
Qed.

Lemma sameButStylesheet_cover (h : Host) (book : Book.t) (options : ExportOptions)
    (z1 z2 : Zip) :
  Spec.sameButStylesheet z1 z2 ->
  Spec.sameButStylesheet (Spec.withCoverImage h book options z1)
                         (Spec.withCoverImage h book options z2).
Proof.
  intros H. unfold Spec.withCoverImage.
  destruct (truthy _ && includeImages options); [|exact H].
  destruct (fetchBlob h _); [exact H|]. now apply sameButStylesheet_zipSet.
Qed.

Lemma sameButStylesheet_built (css1 css2 : string) (h : Host) (book : Book.t)
    (options : ExportOptions) (cur : nat) :
  Spec.sameButStylesheet (Spec.builtArchive css1 h book options cur)
                         (Spec.builtArchive css2 h book options cur).
Proof.
  unfold Spec.builtArchive. cbv zeta. apply sameButStylesheet_addChapters.
  repeat apply sameButStylesheet_zipSet.
  unfold Spec.sameButStylesheet.
  repeat (constructor; [cbn [fst snd]; split; [reflexivity | try reflexivity; intros N; now elim N]|]).
  constructor.
Qed.

Lemma sameButStylesheet_get (z1 z2 : Zip) (n : string) :
  Spec.sameButStylesheet z1 z2 -> n <> "OEBPS/stylesheet.css" ->
  zipGet n z1 = zipGet n z2.
Proof.
  unfold Spec.sameButStylesheet.
  induction 1 as [|[n1 d1] [n2 d2] r1 r2 [E1 E2] _ IH]; intros N; [reflexivity|].
  cbn [fst snd] in *. subst n2. cbn [zipGet].
  destruct (String.eqb_spec n1 n) as [->|]; [|now apply IH].
  now rewrite E2.
Qed.

(** X25.  For the same book, options, host and position in the random
    sequence, the archives of [exportToKindle] and of [exportToEPUB] have
    the same entries in the same order and the same content under each,
    the stylesheet apart, which is that of [createKindleCSS] in the one
    and of [createEPUBCSS] in the other. *)
Theorem kindle_archive_is_epub_archive (h : Host) (book : Book.t)
    (options : ExportOptions) (cur : nat) (kindleZip epubZip : Zip) :
  Spec.downloadedArchive (exportToKindle h book options cur) = Some kindleZip ->
  Spec.downloadedArchive (exportToEPUB h book options cur) = Some epubZip ->
  map fst kindleZip = map fst epubZip
  /\ (forall n, n <> "OEBPS/stylesheet.css" -> zipGet n kindleZip = zipGet n epubZip)
  /\ zipGet "OEBPS/stylesheet.css" kindleZip = Some (Text (createKindleCSS options))
  /\ zipGet "OEBPS/stylesheet.css" epubZip = Some (Text (createEPUBCSS options)).
Proof.
  rewrite exportToKindle_steps, exportToEPUB_steps. intros K E.
  apply downloadedArchive_finish in K, E. subst.
  pose proof (sameButStylesheet_cover h book options _ _
                (sameButStylesheet_built (createKindleCSS options) (createEPUBCSS options)
                   h book options cur)) as S.
  split; [|split; [|split]].
  - unfold Spec.sameButStylesheet in S.
    induction S as [|e1 e2 r1 r2 [E _] _ IH]; [reflexivity|].
    cbn [map]. now rewrite E, IH.
  - intros n N. now apply sameButStylesheet_get.
  - apply archive_layout.
  - apply archive_layout.
Qed.

Lemma kindle_archive_is_epub_archive_witness :
  let kindleZip :=
    Spec.withCoverImage Spec.quietHost Spec.scenarioBook (Spec.epubOptions false)
      (Spec.builtArchive (createKindleCSS (Spec.epubOptions false)) Spec.quietHost
         Spec.scenarioBook (Spec.epubOptions false) 0) in
  let epubZip :=
    Spec.withCoverImage Spec.quietHost Spec.scenarioBook (Spec.epubOptions false)
      (Spec.builtArchive (createEPUBCSS (Spec.epubOptions false)) Spec.quietHost
         Spec.scenarioBook (Spec.epubOptions false) 0) in
  Spec.downloadedArchive
    (exportToKindle Spec.quietHost Spec.scenarioBook (Spec.epubOptions false) 0)
  = Some kindleZip
  /\ Spec.downloadedArchive
       (exportToEPUB Spec.quietHost Spec.scenarioBook (Spec.epubOptions false) 0)
     = Some epubZip
  /\ map fst kindleZip = map fst epubZip.
Proof.
  cbv zeta.
  assert (K : Spec.downloadedArchive
                (exportToKindle Spec.quietHost Spec.scenarioBook (Spec.epubOptions false) 0)
              = Some (Spec.withCoverImage Spec.quietHost Spec.scenarioBook
                        (Spec.epubOptions false)
                        (Spec.builtArchive (createKindleCSS (Spec.epubOptions false))
                           Spec.quietHost Spec.scenarioBook (Spec.epubOptions false) 0)))
    by (rewrite exportToKindle_steps; reflexivity).
  assert (E : Spec.downloadedArchive
                (exportToEPUB Spec.quietHost Spec.scenarioBook (Spec.epubOptions false) 0)
              = Some (Spec.withCoverImage Spec.quietHost Spec.scenarioBook
                        (Spec.epubOptions false)
                        (Spec.builtArchive (createEPUBCSS (Spec.epubOptions false))
                           Spec.quietHost Spec.scenarioBook (Spec.epubOptions false) 0)))
    by (rewrite exportToEPUB_steps; reflexivity).
  split; [exact K|]. split; [exact E|].
  exact (proj1 (kindle_archive_is_epub_archive _ _ _ _ _ _ K E)).
Defined.

(** ** The links of the generated pages *)

Lemma lacks_escapeXML (c : ascii) (s : string) :
  (c = "<" \/ c = ">" \/ c = dquote \/ c = "'")%char ->
  Spec.lacks c (ExportUtils.escapeXML s) = true.
Proof.
  intros H. induction s as [|x s IH]; [reflexivity|].
  now rewrite escapeXML_cons, lacks_append, lacks_escapeChar_quote, IH.
Qed.

Lemma lacks_decimal (c : ascii) (d : Decimal.uint) :
  (c = "<" \/ c = ">" \/ c = dquote)%char ->
  Spec.lacks c (DecimalString.NilEmpty.string_of_uint d) = true.
Proof.
  intros H. induction d; simpl; try rewrite IHd;
    destruct H as [-> | [-> | ->]]; reflexivity.
Qed.

Lemma lacks_natToString (c : ascii) (n : nat) :
  (c = "<" \/ c = ">" \/ c = dquote)%char -> Spec.lacks c (natToString n) = true.
Proof. apply lacks_decimal. Qed.

Lemma lacks_hexadecimal (c : ascii) (d : Hexadecimal.uint) :
  (c = "<" \/ c = ">" \/ c = dquote)%char ->
  Spec.lacks c (HexadecimalString.NilEmpty.string_of_uint d) = true.
Proof.
  intros H. induction d; simpl; try rewrite IHd;
    destruct H as [-> | [-> | ->]]; reflexivity.
Qed.

Lemma lacks_toString16 (c : ascii) (v : N) :
  (c = "<" \/ c = ">" \/ c = dquote)%char -> Spec.lacks c (toString16 v) = true.
Proof.
  intros H. unfold toString16, HexadecimalString.NilZero.string_of_uint.
  destruct (N.to_hex_uint v) eqn:E; try (rewrite <- E; now apply lacks_hexadecimal).
  destruct H as [-> | [-> | ->]]; reflexivity.
Qed.

(** An identifier holds nothing that opens or closes an element or an
    attribute, whatever the draws. *)
Lemma lacks_uuidAt (c : ascii) (h : Host) (cur : nat) :
  (c = "<" \/ c = ">" \/ c = dquote)%char -> Spec.lacks c (Spec.uuidAt h cur) = true.
Proof.
  intros H. unfold Spec.uuidAt, generateUUID.
  cbn -[toString16 N.lor N.land Spec.lacks].
  destruct H as [-> | [-> | ->]];
    repeat progress (cbn [Spec.lacks Ascii.eqb Bool.eqb negb andb];
                     rewrite ?lacks_append, ?lacks_toString16 by tauto);
    reflexivity.
Qed.

Lemma lacks_chapterFile (c : ascii) (k : nat) :
  (c = "<" \/ c = dquote)%char -> Spec.lacks c (Spec.chapterFile k) = true.
Proof.
  intros H. unfold Spec.chapterFile.
  rewrite !lacks_append, lacks_natToString by (destruct H; [now left | now right; right]).
  destruct H as [-> | ->]; reflexivity.
Qed.

(** Bring both sides of an equation between templates to one shape. *)
Ltac shape :=
  repeat progress (cbn [q append Ascii.eqb Bool.eqb]; rewrite ?append_assoc);
  reflexivity.

(** Pieces joined by a separator the reader passes over. *)
Lemma elements_join {A : Type} (o : ascii) (opening' : string) (stop : ascii)
    (sep : string) (f : A -> nat -> string) (g : A -> nat -> list string) (l : list A) :
  Spec.lacks o sep = true ->
  (forall x k r, Spec.elements (String o opening') stop (f x k ++ r)
                 = (g x k ++ Spec.elements (String o opening') stop r)%list) ->
  forall i r,
    Spec.elements (String o opening') stop (join sep (mapi_from i f l) ++ r)
    = (List.concat (mapi_from i g l) ++ Spec.elements (String o opening') stop r)%list.
Proof.
  intros Hsep Hf. induction l as [|x l IH]; intros i r; [reflexivity|].
  destruct l as [|y l].
  - cbn [mapi_from join String.concat List.concat]. rewrite Hf.
    now rewrite app_nil_r.
  - change (join sep (mapi_from i f (x :: y :: l)))
      with (f x i ++ sep ++ join sep (mapi_from (S i) f (y :: l))).
    rewrite !append_assoc, Hf, (elements_skip _ _ _ _ _ Hsep), IH.
    cbn [mapi_from List.concat]. now rewrite app_assoc.
Qed.

Lemma concat_singletons {A B : Type} (f : nat -> B) (l : list A) (i : nat) :
  List.concat (mapi_from i (fun _ k => [f k]) l) = map f (seq i (List.length l)).
Proof.
  revert i. induction l as [|x l IH]; intros i; [reflexivity|].
  cbn [mapi_from List.concat app List.length seq map]. now rewrite IH.
Qed.

(** Replace the reading of every closed piece of template by its value. *)
Ltac read_literals :=
  repeat match goal with
  | |- context [Spec.elements ?op ?st (q ?l)] =>
      let v := eval vm_compute in (Spec.elements op st (q l)) in
      change (Spec.elements op st (q l)) with v
  end.

Ltac read_document :=
  repeat first
    [ rewrite elements_selfContained by reflexivity
    | rewrite elements_skip
        by (first [ apply lacks_escapeXML; tauto | apply lacks_natToString; tauto
                  | apply lacks_uuidAt; tauto | assumption ]) ].

Lemma tocEntry_shape (chapter : BookChapter.t) (k : nat) :
  tocEntry chapter k
  = "<li>" ++ q "<a href='" ++ Spec.chapterFile k
    ++ String dquote (">" ++ escapeXML (BookChapter.title chapter) ++ "</a></li>").
Proof. unfold tocEntry, Spec.chapterFile. shape. Qed.

Lemma links_tocEntry (chapter : BookChapter.t) (k : nat) (r : string) :
  Spec.elements (q "<a href='") dquote (tocEntry chapter k ++ r)
  = ([Spec.chapterFile k] ++ Spec.elements (q "<a href='") dquote r)%list.
Proof.
  rewrite tocEntry_shape, !append_assoc.
  change (q "<a href='") with (String "<" (q "a href='")).
  rewrite elements_selfContained by reflexivity.
  change (String "<" (q "a href='") ++ Spec.chapterFile k
          ++ String dquote (">" ++ escapeXML (BookChapter.title chapter) ++ "</a></li>") ++ r)
    with (String "<" (q "a href='") ++ Spec.chapterFile k
          ++ String dquote ((">" ++ escapeXML (BookChapter.title chapter) ++ "</a></li>") ++ r)).
  rewrite elements_open;
    [| reflexivity | apply lacks_chapterFile; now left | apply lacks_chapterFile; now right].
  change (String dquote ((">" ++ escapeXML (BookChapter.title chapter) ++ "</a></li>") ++ r))
    with (String dquote ">" ++ (escapeXML (BookChapter.title chapter) ++ "</a></li>") ++ r).
  rewrite elements_skip by reflexivity.
  rewrite !append_assoc. read_document. reflexivity.
Qed.

(** X26.  The links of the table-of-contents page are exactly the files of
    the chapters, [chapter1.xhtml] onwards, one per chapter and in the
    order of [Book.content], whatever the titles hold: an escaped title
    cannot add or hide a link. *)
Theorem createTOCPage_links (book : Book.t) :
  Spec.elements (q "<a href='") dquote (createTOCPage book)
  = map Spec.chapterFile (seq 0 (List.length (chaptersOf book))).
Proof.
  unfold createTOCPage. cbv zeta. unfold mapi.
  change (q "<a href='") with (String "<" (q "a href='")).
  read_document.
  rewrite (elements_join "<" (q "a href='") dquote (q "
    ") tocEntry (fun _ k => [Spec.chapterFile k]) _ eq_refl links_tocEntry).
  read_literals. rewrite concat_singletons. cbn [app]. now rewrite app_nil_r.
Qed.

Lemma elements_open_then (o : ascii) (opening' : string) (stop : ascii) (v r : string) :
  Ascii.eqb o stop = false ->
  Spec.lacks o opening' = true ->
  Spec.lacks o v = true ->
  Spec.lacks stop v = true ->
  Spec.elements (String o opening') stop (String o opening' ++ v ++ String stop r)
  = v :: Spec.elements (String o opening') stop r.
Proof.
  intros N Ho Hv Hs. rewrite elements_open by assumption.
  cbn [Spec.elements startsWith]. now rewrite N.
Qed.

Lemma navPoint_sources_shape (chapter : BookChapter.t) (k : nat) (r : string) :
  navPoint chapter k ++ r
  = q "
    <navPoint id='navpoint-" ++ natToString (k + 3) ++ q "' playOrder='"
    ++ natToString (k + 3) ++ q "'>
      <navLabel><text>" ++ escapeXML (BookChapter.title chapter)
    ++ q "</text></navLabel>
      " ++ String "<" (q "content src='") ++ Spec.chapterFile k
    ++ String dquote (q "/>
    </navPoint>" ++ r).
Proof. unfold navPoint, Spec.chapterFile. shape. Qed.

Lemma sources_navPoint (chapter : BookChapter.t) (k : nat) (r : string) :
  Spec.elements (String "<" (q "content src='")) dquote (navPoint chapter k ++ r)
  = ([Spec.chapterFile k]
     ++ Spec.elements (String "<" (q "content src='")) dquote r)%list.
Proof.
  rewrite navPoint_sources_shape. read_document.
  rewrite elements_open_then;
    [| reflexivity | reflexivity | apply lacks_chapterFile; now left
     | apply lacks_chapterFile; now right].
  read_document. reflexivity.
Qed.

Lemma navPoint_ids_shape (chapter : BookChapter.t) (k : nat) (r : string) :
  navPoint chapter k ++ r
  = q "
    " ++ String "<" (q "navPoint id='navpoint-") ++ natToString (k + 3)
    ++ String dquote
         (q " playOrder='" ++ natToString (k + 3) ++ q "'>
      <navLabel><text>" ++ escapeXML (BookChapter.title chapter)
          ++ q "</text></navLabel>
      <content src='chapter" ++ natToString (k + 1) ++ q ".xhtml'/>
    </navPoint>" ++ r).
Proof. unfold navPoint. shape. Qed.

Lemma ids_navPoint (chapter : BookChapter.t) (k : nat) (r : string) :
  Spec.elements (String "<" (q "navPoint id='navpoint-")) dquote (navPoint chapter k ++ r)
  = ([natToString (k + 3)]
     ++ Spec.elements (String "<" (q "navPoint id='navpoint-")) dquote r)%list.
Proof.
  rewrite navPoint_ids_shape. read_document.
  rewrite elements_open_then;
    [| reflexivity | reflexivity | apply lacks_natToString; tauto
     | apply lacks_natToString; tauto].
  read_document. reflexivity.
Qed.

(** X27.  [createTOCNCX] takes 31 draws and returns a navigation document
    whose navigation points are numbered 1, 2, ..., N + 2 and point, in
    this order, to the title page, to the table of contents and to the
    file of each of the N chapters of [Book.content]; neither the titles
    nor the identifier can add or hide a point. *)
Theorem createTOCNCX_navigation (h : Host) (book : Book.t) (cur : nat) :
  exists ncx,
    createTOCNCX h book cur = mkRun [] (31 + cur) (inr ncx)
    /\ Spec.elements (q "<content src='") dquote ncx
       = ("title.xhtml" :: "toc.xhtml"
          :: map Spec.chapterFile (seq 0 (List.length (chaptersOf book))))
    /\ Spec.elements (q "<navPoint id='navpoint-") dquote ncx
       = map natToString (seq 1 (2 + List.length (chaptersOf book))).
Proof.
  eexists. split; [apply createTOCNCX_run|].
  unfold tocNCX. cbv zeta. unfold mapi. split.
  - change (q "<content src='") with (String "<" (q "content src='")).
    read_document.
    rewrite (elements_join "<" (q "content src='") dquote "" navPoint
               (fun _ k => [Spec.chapterFile k]) _ eq_refl sources_navPoint).
    read_literals. rewrite concat_singletons. cbn [app]. now rewrite app_nil_r.
  - change (q "<navPoint id='navpoint-") with (String "<" (q "navPoint id='navpoint-")).
    read_document.
    rewrite (elements_join "<" (q "navPoint id='navpoint-") dquote "" navPoint
               (fun _ k => [natToString (k + 3)]) _ eq_refl ids_navPoint).
    read_literals. rewrite concat_singletons. cbn [app]. rewrite app_nil_r.
    cbn [seq map Nat.add]. do 2 f_equal.
    rewrite <- (seq_shift _ 2), <- (seq_shift _ 1), <- (seq_shift _ 0), !map_map.
    apply map_ext. intros k. f_equal. lia.
Qed.

(** *** The page of a chapter *)

Lemma elements_join_map {A : Type} (o : ascii) (opening' : string) (stop : ascii)
    (sep : string) (f : A -> string) (g : A -> list string) (l : list A) :
  Spec.lacks o sep = true ->
  (forall x r, Spec.elements (String o opening') stop (f x ++ r)
               = (g x ++ Spec.elements (String o opening') stop r)%list) ->
  forall r,
    Spec.elements (String o opening') stop (join sep (map f l) ++ r)
    = (List.concat (map g l) ++ Spec.elements (String o opening') stop r)%list.
Proof.
  intros Hsep Hf. induction l as [|x l IH]; intros r; [reflexivity|].
  destruct l as [|y l].
  - cbn [map join String.concat List.concat]. rewrite Hf. now rewrite app_nil_r.
  - change (join sep (map f (x :: y :: l)))
      with (f x ++ sep ++ join sep (map f (y :: l))).
    rewrite !append_assoc, Hf, (elements_skip _ _ _ _ _ Hsep), IH.
    cbn [map List.concat]. now rewrite app_assoc.
Qed.

Lemma paragraph_shape (body r : string) :
  ("<p>" ++ body ++ "</p>") ++ r = "<p>" ++ body ++ String "<" ("/p>" ++ r).
Proof. shape. Qed.

Lemma paragraphs_paragraph (paragraph r : string) :
  Spec.elements "<p>" "<" (("<p>" ++ escapeXML (trim paragraph) ++ "</p>") ++ r)
  = ([escapeXML (trim paragraph)] ++ Spec.elements "<p>" "<" r)%list.
Proof.
  rewrite paragraph_shape.
  rewrite elements_open; [| reflexivity | apply lacks_escapeXML; tauto
                          | apply lacks_escapeXML; tauto].
  change (String "<" ("/p>" ++ r)) with ("</p>" ++ r).
  now rewrite elements_selfContained by reflexivity.
Qed.

(** X28.  The page of a chapter holds one paragraph element for each piece
    of the content between blank lines, in order, its body being the
    piece trimmed and escaped; the title cannot add a paragraph. *)
Theorem createChapterXHTML_paragraphs (chapter : BookChapter.t) (options : ExportOptions) :
  Spec.elements "<p>" "<" (createChapterXHTML chapter options)
  = map (fun paragraph => escapeXML (trim paragraph))
        (split Spec.blankLine (BookChapter.content chapter)).
Proof.
  unfold createChapterXHTML, formatChapterContent. read_document.
  rewrite (elements_join_map "<" "p>" "<" (String newline "")
             (fun paragraph => "<p>" ++ escapeXML (trim paragraph) ++ "</p>")
             (fun paragraph => [escapeXML (trim paragraph)]) _ eq_refl paragraphs_paragraph).
  read_literals. cbn [app]. rewrite app_nil_r.
  unfold Spec.blankLine.
  induction (split _ _) as [|x l IH]; [reflexivity|].
  cbn [map List.concat app]. now rewrite IH.
Qed.

(** *** Print-ready HTML *)

(** X29.  [createPrintReadyHTML] is [createPDFHTML] with the margins
    defaulting to 0.75in on every side; the default it gives to the paper
    size ([us-trade]) has no effect on the document. *)
Theorem createPrintReadyHTML_defaults (book : Book.t) (options : ExportOptions) :
  createPrintReadyHTML book options
  = createPDFHTML book
      (mkOptions (format options) (includeImages options) (paperSize options)
         (Some (match margins options with
                | Some m => m
                | None => defaultMargins 75%Z
                end))
         (fontSize options) (fontFamily options) (lineSpacing options)).
Proof.
  unfold createPrintReadyHTML, createPDFHTML, fontFamilyOr.
  cbn [paperSize margins fontSize fontFamily lineSpacing].
  destruct (paperSize options) as [[]|], (margins options); reflexivity.
Qed.
